(** * Ethereum explorer backend: the snapshot cache of [src/backend/api/ethereum.ts]

    A shallow embedding of the backend module: the JSON values it receives
    from the JSON-RPC endpoint, the JavaScript built-ins it applies to them
    ([parseInt], [BigInt], [Number], [toFixed], [parseFloat], [||]), the
    module-level [cachedData] object, the refresh cycle
    [fetchLatestBlockData] and the three HTTP routes.

    Conventions.
    - A JavaScript [number] is an IEEE-754 binary64 value: [spec_float] with
      precision 53 and maximal exponent 1024.
    - A JavaScript string is its UTF-8 byte sequence ([string]).
    - [Date.now()] is an integral number of milliseconds; time values and
      their differences are exact in binary64, so they are kept in [Z].
    - Exceptions are completions ([Throw]); a mutation made before a throw
      stays made. *)

From Stdlib Require Import ZArith List String Ascii Bool Lia Sorted.
From Stdlib Require Import Floats.SpecFloat Numbers.DecimalString.
Import ListNotations.

Set Warnings "-register-all".
Local Open Scope string_scope.
Local Open Scope Z_scope.

(** ** Numbers *)

Module Num.

Definition Number : Type := spec_float.

Definition prec : Z := 53.
Definition emax : Z := 1024.

Definition NaN : Number := S754_nan.
Definition Infinity : Number := S754_infinity false.

(** The number value of a mathematical integer: round to nearest, ties to
    even, overflow to an infinity. [neg] is the sign given to a zero. *)
Definition ofInteger (neg : bool) (z : Z) : Number :=
  binary_normalize prec emax z 0 neg.

(** The number value of the rational [num / den] ([0 <= num], [0 < den])
    with sign [neg]. *)
Definition ofRatio (neg : bool) (num den : Z) : Number :=
  let '(q, e, l) := SFdiv_core_binary prec emax num 0 den 0 in
  binary_round_aux prec emax neg q e l.

(** The exact value [m * 2^e] of a finite number as a fraction. *)
Definition ratio (m : positive) (e : Z) : Z * Z :=
  if 0 <=? e then (Zpos m * 2 ^ e, 1) else (Zpos m, 2 ^ (- e)).

Definition div (x y : Number) : Number := SFdiv prec emax x y.
Definition mul (x y : Number) : Number := SFmul prec emax x y.
Definition add (x y : Number) : Number := SFadd prec emax x y.

(** [Math.floor]. *)
Definition floor (x : Number) : Number :=
  match x with
  | S754_finite s m e =>
      let '(num, den) := ratio m e in
      if s then ofInteger true (- ((num + den - 1) / den))
      else ofInteger false (num / den)
  | _ => x
  end.

(** Decimal digits of a natural number. *)
Definition digits (n : Z) : string :=
  NilZero.string_of_uint (N.to_uint (Z.to_N n)).

Fixpoint zeros (n : nat) : string :=
  match n with
  | O => ""
  | S n' => String "0" (zeros n')
  end.

Definition strlen (s : string) : Z := Z.of_nat (String.length s).

(** Characters [from, from + len) of [s]. *)
Definition sub (from len : Z) (s : string) : string :=
  String.substring (Z.to_nat from) (Z.to_nat len) s.

(** *** Number::toString (radix 10) *)

(** The decimal exponent [n] of a positive fraction:
    [10^(n-1) <= num/den < 10^n]. *)
Fixpoint smallExponent (fuel : nat) (num den : Z) (j : Z) : Z :=
  match fuel with
  | O => 1 - j
  | S fuel' =>
      if den <=? num * 10 ^ j then 1 - j
      else smallExponent fuel' num den (j + 1)
  end.

Definition decimalExponent (num den : Z) : Z :=
  if den <=? num then strlen (digits (num / den))
  else smallExponent 400 num den 1.

(** [s * 10^p] as a fraction. *)
Definition scale10 (num den p : Z) : Z * Z :=
  if 0 <=? p then (num * 10 ^ p, den) else (num, den * 10 ^ (- p)).

(** Does the decimal [s * 10^(n-k)] denote the finite number [x]? *)
Definition denotes (x : Number) (s n k : Z) : bool :=
  let '(num, den) := scale10 s 1 (n - k) in
  SFeqb (ofRatio false num den) x.

(** The shortest digit string [s] (with [k] digits) and exponent [n] such
    that [s * 10^(n-k)] denotes [x]; among two candidates of that length
    the one nearer to [x], the even one on a tie. *)
Fixpoint shortest (fuel : nat) (x : Number) (num den n k : Z) : Z * Z * Z :=
  let '(a, b) := scale10 num den (k - n) in
  let lo := a / b in
  let hi := lo + 1 in
  let okLo := (10 ^ (k - 1) <=? lo) && denotes x lo n k in
  let hiS := if hi =? 10 ^ k then 10 ^ (k - 1) else hi in
  let hiN := if hi =? 10 ^ k then n + 1 else n in
  let okHi := denotes x hiS hiN k in
  let nearerLo :=
    match (2 * a ?= (lo + hi) * b) with
    | Lt => true
    | Eq => Z.even lo
    | Gt => false
    end in
  match fuel with
  | O => (lo, n, k)
  | S fuel' =>
      if okLo && (negb okHi || nearerLo) then (lo, n, k)
      else if okHi then (hiS, hiN, k)
      else shortest fuel' x num den n (k + 1)
  end.

Definition signed (neg : bool) (s : string) : string :=
  if neg then "-" ++ s else s.

Definition Number_toString (x : Number) : string :=
  match x with
  | S754_nan => "NaN"
  | S754_zero _ => "0"
  | S754_infinity s => signed s "Infinity"
  | S754_finite neg m e =>
      let '(num, den) := ratio m e in
      let '(s, n, k) :=
        shortest 20 (S754_finite false m e) num den (decimalExponent num den) 1 in
      let d := digits s in
      signed neg
        (if (k <=? n) && (n <=? 21) then d ++ zeros (Z.to_nat (n - k))
         else if (0 <? n) && (n <=? 21) then sub 0 n d ++ "." ++ sub n (k - n) d
         else if (-6 <? n) && (n <=? 0) then "0." ++ zeros (Z.to_nat (- n)) ++ d
         else
           let ex := (if 0 <=? n - 1 then "+" else "-") ++ digits (Z.abs (n - 1)) in
           if k =? 1 then d ++ "e" ++ ex
           else sub 0 1 d ++ "." ++ sub 1 (k - 1) d ++ "e" ++ ex)
  end.

(** *** Number.prototype.toFixed *)

(** [n] written with exactly [f] fraction digits, [n] counting units of
    [10^-f]. *)
Definition fixedPoint (n : Z) (f : nat) : string :=
  let m := digits n in
  match f with
  | O => m
  | S _ =>
      let fz := Z.of_nat f in
      let m := if strlen m <=? fz then zeros (Z.to_nat (fz + 1 - strlen m)) ++ m else m in
      let k := strlen m in
      sub 0 (k - fz) m ++ "." ++ sub (k - fz) fz m
  end.

Definition toFixed (x : Number) (f : nat) : string :=
  match x with
  | S754_nan | S754_infinity _ => Number_toString x
  | S754_zero _ => fixedPoint 0 f
  | S754_finite neg m e =>
      let '(num, den) := ratio m e in
      if 10 ^ 21 * den <=? num then Number_toString x
      else
        let scaled := num * 10 ^ Z.of_nat f in
        signed neg (fixedPoint ((2 * scaled + den) / (2 * den)) f)
  end.

End Num.
Export Num.

(** ** Values and completions *)

Inductive JsError : Type :=
| TypeError      (* property of null/undefined, call of a non-function, ... *)
| SyntaxError    (* unparsable text *)
| RangeError     (* a non-integral number given to BigInt *)
| FetchError.    (* the transport rejected *)

Inductive Completion (A : Type) : Type :=
| Normal (a : A)
| Throw (e : JsError).
Arguments Normal {A} a.
Arguments Throw {A} e.

Definition andThen {A B : Type} (c : Completion A) (k : A -> Completion B) : Completion B :=
  match c with
  | Normal a => k a
  | Throw e => Throw e
  end.

Declare Scope completion_scope.
Delimit Scope completion_scope with completion.
Notation "'let?' x := c 'in' k" := (andThen c (fun x => k))
  (at level 10, x name, c at level 100, k at level 200) : completion_scope.
Local Open Scope completion_scope.

(** A value as [JSON.parse] builds it (plus [undefined], the value of an
    absent property).  An object is the list of its own properties; the
    first binding of a name is the property's value. *)
Inductive JsVal : Type :=
| JUndefined
| JNull
| JBool (b : bool)
| JNum (x : Number)
| JStr (s : string)
| JArr (items : list JsVal)
| JObj (props : list (string * JsVal)).

Fixpoint lookup (name : string) (props : list (string * JsVal)) : JsVal :=
  match props with
  | [] => JUndefined
  | (k, v) :: rest => if String.eqb k name then v else lookup name rest
  end.

Definition hasOwn (name : string) (props : list (string * JsVal)) : bool :=
  existsb (fun kv => String.eqb (fst kv) name) props.

(** [v.name], for the property names this module reads ([result], [number],
    [hash], [timestamp], [transactions], [gasUsed], [gasLimit], [miner],
    [difficulty], [from], [to], [value], [gasPrice], [gas], [nonce],
    [blockNumber]): none of them is inherited from a prototype, so only an
    object's own property can answer. *)
Definition Get (v : JsVal) (name : string) : Completion JsVal :=
  match v with
  | JUndefined | JNull => Throw TypeError
  | JObj props => Normal (lookup name props)
  | _ => Normal JUndefined
  end.

(** ToBoolean. *)
Definition truthy (v : JsVal) : bool :=
  match v with
  | JUndefined | JNull => false
  | JBool b => b
  | JNum (S754_zero _) | JNum S754_nan => false
  | JNum _ => true
  | JStr s => negb (String.eqb s "")
  | JArr _ | JObj _ => true
  end.

(** [a || b]. *)
Definition or_else (a b : JsVal) : JsVal := if truthy a then a else b.

(** [typeof v === 'string']. *)
Definition isString (v : JsVal) : bool :=
  match v with
  | JStr _ => true
  | _ => false
  end.

(** ToString.  A parsed object inherits [Object.prototype.toString] unless
    it has an own property of that name, which (being data) is not callable
    and leaves the conversion without a primitive.  An array is joined with
    commas, [null] and [undefined] elements giving the empty string. *)
Fixpoint ToString (v : JsVal) : Completion string :=
  match v with
  | JUndefined => Normal "undefined"
  | JNull => Normal "null"
  | JBool b => Normal (if b then "true" else "false")
  | JNum x => Normal (Number_toString x)
  | JStr s => Normal s
  | JArr items =>
      (fix join (l : list JsVal) : Completion string :=
         match l with
         | [] => Normal ""
         | x :: rest =>
             let? s := match x with
                       | JUndefined | JNull => Normal ""
                       | _ => ToString x
                       end in
             match rest with
             | [] => Normal s
             | _ :: _ => let? r := join rest in Normal (s ++ "," ++ r)
             end
         end) items
  | JObj props =>
      if hasOwn "toString" props then Throw TypeError else Normal "[object Object]"
  end.

(** ** Reading numbers out of strings *)

Definition code (c : ascii) : Z := Z.of_N (N_of_ascii c).

(** The string after one leading white space or line terminator, if it
    starts with one (TAB, LF, VT, FF, CR, SP, and in UTF-8: U+00A0, U+1680,
    U+2000..U+200A, U+2028, U+2029, U+202F, U+205F, U+3000, U+FEFF). *)
Definition afterWhite (s : string) : option string :=
  match s with
  | String a r1 =>
      let a := code a in
      if ((9 <=? a) && (a <=? 13)) || (a =? 32) then Some r1
      else
        match r1 with
        | String b r2 =>
            let b := code b in
            if (a =? 194) && (b =? 160) then Some r2
            else
              match r2 with
              | String c r3 =>
                  let c := code c in
                  if ((a =? 225) && (b =? 154) && (c =? 128))
                     || ((a =? 226) && (b =? 128)
                         && (((128 <=? c) && (c <=? 138)) || (c =? 168) || (c =? 169) || (c =? 175)))
                     || ((a =? 226) && (b =? 129) && (c =? 159))
                     || ((a =? 227) && (b =? 128) && (c =? 128))
                     || ((a =? 239) && (b =? 187) && (c =? 191))
                  then Some r3
                  else None
              | EmptyString => None
              end
        | EmptyString => None
        end
  | EmptyString => None
  end.

Fixpoint skipWhiteFrom (fuel : nat) (s : string) : string :=
  match fuel with
  | O => s
  | S fuel' =>
      match afterWhite s with
      | Some r => skipWhiteFrom fuel' r
      | None => s
      end
  end.

Definition skipWhite (s : string) : string := skipWhiteFrom (String.length s) s.

Definition isBlank (s : string) : bool := String.eqb (skipWhite s) "".

Definition digitValue (radix : Z) (c : ascii) : option Z :=
  let n := code c in
  let d := if (48 <=? n) && (n <=? 57) then n - 48
           else if (97 <=? n) && (n <=? 122) then n - 87
           else if (65 <=? n) && (n <=? 90) then n - 55
           else radix in
  if d <? radix then Some d else None.

(** The longest prefix of digits: its value on top of [acc], how many
    digits it has on top of [n], and what follows it. *)
Fixpoint readDigits (radix : Z) (s : string) (acc : Z) (n : nat) : Z * nat * string :=
  match s with
  | EmptyString => (acc, n, s)
  | String c r =>
      match digitValue radix c with
      | Some d => readDigits radix r (acc * radix + d) (S n)
      | None => (acc, n, s)
      end
  end.

Definition readSign (s : string) : bool * string :=
  match s with
  | String "-" r => (true, r)
  | String "+" r => (false, r)
  | _ => (false, s)
  end.

(** [parseInt(v, radix)] for a radix from 2 to 36; a radix of 16 allows a
    [0x] prefix. *)
Definition parseInt (v : JsVal) (radix : Z) : Completion Number :=
  let? inputString := ToString v in
  let '(neg, s) := readSign (skipWhite inputString) in
  let s := match s with
           | String "0" (String x r) =>
               if (radix =? 16) && ((code x =? 120) || (code x =? 88)) then r else s
           | _ => s
           end in
  let '(mathInt, n, _) := readDigits radix s 0 0 in
  match n with
  | O => Normal NaN
  | S _ => Normal (ofInteger neg (if neg then - mathInt else mathInt))
  end.

(** StringToBigInt: white space around a signed decimal literal or an
    unsigned [0x], [0o] or [0b] literal; the empty string is zero. *)
Definition StringToBigInt (text : string) : option Z :=
  let s := skipWhite text in
  match s with
  | EmptyString => Some 0
  | _ =>
      let '(radix, neg, body) :=
        match s with
        | String "0" (String x r) =>
            let x := code x in
            if (x =? 120) || (x =? 88) then (16, false, r)
            else if (x =? 111) || (x =? 79) then (8, false, r)
            else if (x =? 98) || (x =? 66) then (2, false, r)
            else (10, false, s)
        | _ => let '(neg, r) := readSign s in (10, neg, r)
        end in
      let '(z, n, rest) := readDigits radix body 0 0 in
      match n with
      | O => None
      | S _ => if isBlank rest then Some (if neg then - z else z) else None
      end
  end.

(** The integer a number is, if it is one. *)
Definition integral (x : Number) : option Z :=
  match x with
  | S754_zero _ => Some 0
  | S754_finite neg m e =>
      let '(num, den) := ratio m e in
      if num mod den =? 0 then Some (if neg then - (num / den) else num / den) else None
  | _ => None
  end.

(** [BigInt(v)]. *)
Definition BigInt (v : JsVal) : Completion Z :=
  let ofText (s : string) :=
    match StringToBigInt s with
    | Some z => Normal z
    | None => Throw SyntaxError
    end in
  match v with
  | JUndefined | JNull => Throw TypeError
  | JBool b => Normal (if b then 1 else 0)
  | JNum x =>
      match integral x with
      | Some z => Normal z
      | None => Throw RangeError
      end
  | JStr s => ofText s
  | JArr _ | JObj _ => let? s := ToString v in ofText s
  end.

Definition startsWith (p s : string) : bool := String.prefix p s.

(** [parseFloat(s)]: the longest prefix that is a decimal literal, rounded
    to the nearest number. *)
Definition parseFloat (text : string) : Number :=
  let '(neg, s) := readSign (skipWhite text) in
  if startsWith "Infinity" s then S754_infinity neg
  else
    let '(ip, ni, r1) := readDigits 10 s 0 0 in
    let '(mant, nf, r2) :=
      match r1 with
      | String "." r => readDigits 10 r ip 0
      | _ => (ip, O, r1)
      end in
    match (ni + nf)%nat with
    | O => NaN
    | S _ =>
        let ex :=
          match r2 with
          | String c r =>
              if (code c =? 101) || (code c =? 69) then
                let '(eneg, r') := readSign r in
                let '(ev, ne, _) := readDigits 10 r' 0 0 in
                match ne with
                | O => 0
                | S _ => if eneg then - ev else ev
                end
              else 0
          | EmptyString => 0
          end in
        let '(num, den) := scale10 mant 1 (ex - Z.of_nat nf) in
        ofRatio neg num den
    end.

(** ** Data model (the interfaces of the module)

    The TypeScript field types are not checked at run time: a field copied
    from an RPC response ([hash], [from], [to], [miner], the transaction
    hashes of a block) holds whatever value the response had there. *)

Record EthereumBlock : Type := {
  blk_number : Number;
  blk_hash : JsVal;
  blk_timestamp : Number;
  blk_transactions : list JsVal;
  blk_gasUsed : string;
  blk_gasLimit : string;
  blk_miner : JsVal;
  blk_difficulty : string;
  blk_txCount : nat
}.

Record EthereumTransaction : Type := {
  tx_hash : JsVal;
  tx_from : JsVal;
  tx_to : JsVal;
  tx_value : string;
  tx_gasPrice : string;
  tx_gasLimit : string;
  tx_nonce : Number;
  tx_blockNumber : Number
}.

Record EthereumNetworkInfo : Type := {
  net_blockNumber : Number;
  net_gasPrice : string;
  net_txCount : nat
}.

Record GasPricePoint : Type := {
  gpp_blockNumber : Number;
  gpp_gasPrice : Number;
  gpp_timestamp : Number
}.

Record MempoolStats : Type := {
  pendingCount : Number;
  avgGasPrice : string;
  totalValue : string
}.

(** The type of [cachedData]. *)
Record Cache : Type := {
  block : option EthereumBlock;
  transactions : list EthereumTransaction;
  networkInfo : EthereumNetworkInfo;
  blockHistory : list EthereumBlock;
  gasPriceHistory : list GasPricePoint;
  mempoolStats : MempoolStats;
  lastUpdate : Z
}.

Definition zero : Number := ofInteger false 0.

(** The initial value of [cachedData]. *)
Definition initialCache : Cache := {|
  block := None;
  transactions := [];
  networkInfo := {| net_blockNumber := zero; net_gasPrice := "0"; net_txCount := 0 |};
  blockHistory := [];
  gasPriceHistory := [];
  mempoolStats := {| pendingCount := zero; avgGasPrice := "0"; totalValue := "0" |};
  lastUpdate := 0
|}.

(** Assignments to one field of the cache. *)
Definition setBlock (v : option EthereumBlock) (c : Cache) : Cache :=
  {| block := v; transactions := transactions c; networkInfo := networkInfo c;
     blockHistory := blockHistory c; gasPriceHistory := gasPriceHistory c;
     mempoolStats := mempoolStats c; lastUpdate := lastUpdate c |}.

Definition setTransactions (v : list EthereumTransaction) (c : Cache) : Cache :=
  {| block := block c; transactions := v; networkInfo := networkInfo c;
     blockHistory := blockHistory c; gasPriceHistory := gasPriceHistory c;
     mempoolStats := mempoolStats c; lastUpdate := lastUpdate c |}.

Definition setNetworkInfo (v : EthereumNetworkInfo) (c : Cache) : Cache :=
  {| block := block c; transactions := transactions c; networkInfo := v;
     blockHistory := blockHistory c; gasPriceHistory := gasPriceHistory c;
     mempoolStats := mempoolStats c; lastUpdate := lastUpdate c |}.

Definition setBlockHistory (v : list EthereumBlock) (c : Cache) : Cache :=
  {| block := block c; transactions := transactions c; networkInfo := networkInfo c;
     blockHistory := v; gasPriceHistory := gasPriceHistory c;
     mempoolStats := mempoolStats c; lastUpdate := lastUpdate c |}.

Definition setGasPriceHistory (v : list GasPricePoint) (c : Cache) : Cache :=
  {| block := block c; transactions := transactions c; networkInfo := networkInfo c;
     blockHistory := blockHistory c; gasPriceHistory := v;
     mempoolStats := mempoolStats c; lastUpdate := lastUpdate c |}.

Definition setMempoolStats (v : MempoolStats) (c : Cache) : Cache :=
  {| block := block c; transactions := transactions c; networkInfo := networkInfo c;
     blockHistory := blockHistory c; gasPriceHistory := gasPriceHistory c;
     mempoolStats := v; lastUpdate := lastUpdate c |}.

Definition setLastUpdate (v : Z) (c : Cache) : Cache :=
  {| block := block c; transactions := transactions c; networkInfo := networkInfo c;
     blockHistory := blockHistory c; gasPriceHistory := gasPriceHistory c;
     mempoolStats := mempoolStats c; lastUpdate := v |}.

(** ** The process and its surroundings *)

(** A JSON-RPC request as [rpcCall] posts it. *)
Record Rpc : Type := { method : string; params : list JsVal }.

(** What comes back for one request: [fetch] rejects, or [response.json()]
    rejects, or the body parses to [data]. *)
Inductive Wire : Type :=
| Unreachable
| Unparsable
| Body (data : JsVal).

(** The places of a refresh cycle that call the endpoint; the loop over the
    sampled transactions calls it at most once per iteration. *)
Inductive CallSite : Type :=
| AtBlockNumber
| AtBlock
| AtTransaction (i : nat)
| AtGasPrice.

(** The two readings of the clock: by the snapshot route when a request
    arrives, and by a cycle when it stores its results. *)
Inductive Moment : Type :=
| Arrival
| Commit.

(** Everything outside the process that one run depends on. *)
Record World : Type := {
  reply : CallSite -> Rpc -> Wire;
  random : nat -> Number;          (* the successive values of Math.random() *)
  now : Moment -> Z                (* Date.now() *)
}.

Inductive ConsoleLine : Type :=
| FailedToFetchBlock                           (* console.error, line 123 *)
| ErrorProcessingTransaction (e : JsError)      (* console.error, line 161 *)
| UpdatedEthereumData (blockNumber : Number) (txs : nat)   (* console.log, line 206 *)
| ErrorFetchingEthereumData (e : JsError).      (* console.error, line 208 *)

(** The state of the process: the module variable [cachedData], and what
    it has written to the console and posted to the endpoint, newest
    first. *)
Record Proc : Type := {
  cachedData : Cache;
  console : list ConsoleLine;
  sent : list Rpc
}.

(** Computations of the module: they read the world, change the process
    and complete normally or by a throw. *)
Definition Js (A : Type) : Type := World -> Proc -> Completion A * Proc.

Definition ret {A : Type} (a : A) : Js A := fun _ p => (Normal a, p).

Definition bind {A B : Type} (c : Js A) (k : A -> Js B) : Js B :=
  fun w p =>
    match c w p with
    | (Normal a, p') => k a w p'
    | (Throw e, p') => (Throw e, p')
    end.

Definition lift {A : Type} (c : Completion A) : Js A := fun _ p => (c, p).

(** [try { body } catch (error) { handler }]. *)
Definition tryCatch {A : Type} (body : Js A) (handler : JsError -> Js A) : Js A :=
  fun w p =>
    match body w p with
    | (Normal a, p') => (Normal a, p')
    | (Throw e, p') => handler e w p'
    end.

Declare Scope js_scope.
Delimit Scope js_scope with js.
Notation "x <- c ;; k" := (bind c (fun x => k))
  (at level 61, c at next level, right associativity) : js_scope.
Notation "c ;; k" := (bind c (fun _ => k))
  (at level 61, right associativity) : js_scope.
Local Open Scope js_scope.

Definition readCache : Js Cache := fun _ p => (Normal (cachedData p), p).

Definition writeCache (f : Cache -> Cache) : Js unit :=
  fun _ p =>
    (Normal tt, {| cachedData := f (cachedData p); console := console p; sent := sent p |}).

Definition consoleWrite (l : ConsoleLine) : Js unit :=
  fun _ p =>
    (Normal tt, {| cachedData := cachedData p; console := l :: console p; sent := sent p |}).

Definition DateNow (m : Moment) : Js Z := fun w p => (Normal (now w m), p).

Definition MathRandom (k : nat) : Js Number := fun w p => (Normal (random w k), p).

(** ** The module's functions *)

(** What [rpcCall] completes with for a request posted at [site]: the
    [result] of the parsed body, or the rejection of [fetch] or of
    [response.json()]. *)
Definition answer (w : World) (site : CallSite) (request : Rpc) : Completion JsVal :=
  match reply w site request with
  | Unreachable => Throw FetchError
  | Unparsable => Throw SyntaxError
  | Body data => Get data "result"
  end.

(** [rpcCall]: post the request, parse the body, return its [result]. *)
Definition rpcCall (site : CallSite) (method : string) (params : list JsVal) : Js JsVal :=
  fun w p =>
    let request := {| method := method; params := params |} in
    (answer w site request,
     {| cachedData := cachedData p; console := console p; sent := request :: sent p |}).

Definition hexToDecimal (hex : JsVal) : Completion Number := parseInt hex 16.

Definition hexToBigInt (hex : JsVal) : Completion Z := BigInt hex.

(** [Number(b)] for a bigint [b]. *)
Definition NumberOfBigInt (b : Z) : Number := ofInteger false b.

(** The literals [1e18] and [1e9]; both are integers below [2^63] with few
    enough significant bits to be numbers exactly. *)
Definition lit_1e18 : Number := ofInteger false (10 ^ 18).
Definition lit_1e9 : Number := ofInteger false (10 ^ 9).

Definition formatEther (weiHex : JsVal) : Completion string :=
  let? wei := hexToBigInt weiHex in
  let ether := div (NumberOfBigInt wei) lit_1e18 in
  Normal (toFixed ether 6).

Definition formatGwei (weiHex : JsVal) : Completion string :=
  let? wei := hexToBigInt weiHex in
  let gwei := div (NumberOfBigInt wei) lit_1e9 in
  Normal (toFixed gwei 2).

(** [items.map(f)], [f] possibly throwing. *)
Fixpoint mapArray {A B : Type} (f : A -> Completion B) (items : list A) : Completion (list B) :=
  match items with
  | [] => Normal []
  | x :: rest =>
      let? y := f x in
      let? ys := mapArray f rest in
      Normal (y :: ys)
  end.

(** The receiver of [.map], [.length] and [.slice(0, 15)] as the array it
    has to be: on anything else [.map] is not a function (or, on [null]
    and [undefined], not even a property). *)
Definition asArray (v : JsVal) : Completion (list JsVal) :=
  match v with
  | JArr items => Normal items
  | _ => Throw TypeError
  end.

(** The object literal of lines 128-138. *)
Definition toEthereumBlock (block : JsVal) : Completion EthereumBlock :=
  let? number := (let? v := Get block "number" in hexToDecimal v) in
  let? hash := Get block "hash" in
  let? timestamp := (let? v := Get block "timestamp" in hexToDecimal v) in
  let? txs := (let? v := Get block "transactions" in asArray v) in
  let? hashes := mapArray (fun tx => if isString tx then Normal tx else Get tx "hash") txs in
  let? gasUsed := (let? v := Get block "gasUsed" in hexToDecimal v) in
  let? gasLimit := (let? v := Get block "gasLimit" in hexToDecimal v) in
  let? miner := Get block "miner" in
  let? difficulty := (let? v := Get block "difficulty" in hexToDecimal (or_else v (JStr "0x0"))) in
  Normal {| blk_number := number;
            blk_hash := or_else hash (JStr "");
            blk_timestamp := timestamp;
            blk_transactions := hashes;
            blk_gasUsed := Number_toString gasUsed;
            blk_gasLimit := Number_toString gasLimit;
            blk_miner := or_else miner (JStr "");
            blk_difficulty := Number_toString difficulty;
            blk_txCount := List.length txs |}.

(** The object literal of lines 149-158. *)
Definition toEthereumTransaction (txData : JsVal) : Completion EthereumTransaction :=
  let? hash := Get txData "hash" in
  let? from := Get txData "from" in
  let? to := Get txData "to" in
  let? value := (let? v := Get txData "value" in formatEther v) in
  let? gasPrice := (let? v := Get txData "gasPrice" in formatGwei v) in
  let? gas := (let? v := Get txData "gas" in hexToDecimal v) in
  let? nonce := (let? v := Get txData "nonce" in hexToDecimal v) in
  let? blockNumber :=
    (let? v := Get txData "blockNumber" in hexToDecimal (or_else v (JStr "0x0"))) in
  Normal {| tx_hash := hash;
            tx_from := from;
            tx_to := or_else to (JStr "Contract Creation");
            tx_value := value;
            tx_gasPrice := gasPrice;
            tx_gasLimit := Number_toString gas;
            tx_nonce := nonce;
            tx_blockNumber := blockNumber |}.

(** The data of the [i]-th sampled transaction (line 146): the element
    itself unless it is a hash to look up. *)
Definition transactionData (i : nat) (tx : JsVal) : Js JsVal :=
  if isString tx then rpcCall (AtTransaction i) "eth_getTransactionByHash" [tx]
  else ret tx.

(** The loop of lines 144-163 from its [i]-th iteration on, [transactions]
    being the array filled so far. *)
Fixpoint forEachTx (i : nat) (txList : list JsVal) (transactions : list EthereumTransaction)
  : Js (list EthereumTransaction) :=
  match txList with
  | [] => ret transactions
  | tx :: rest =>
      transactions <-
        tryCatch
          (txData <- transactionData i tx ;;
           if truthy txData then
             t <- lift (toEthereumTransaction txData) ;;
             ret (transactions ++ [t])%list
           else ret transactions)
          (fun txError =>
             consoleWrite (ErrorProcessingTransaction txError) ;;
             ret transactions) ;;
      forEachTx (S i) rest transactions
  end.

Definition literal (z : Z) : Number := ofInteger false z.

Definition fetchLatestBlockData : Js unit :=
  tryCatch
    ((* Fetch latest block number *)
     latestBlockNumberHex <- rpcCall AtBlockNumber "eth_blockNumber" [] ;;
     latestBlockNumber <- lift (hexToDecimal latestBlockNumberHex) ;;
     (* Fetch block with transactions *)
     block <- rpcCall AtBlock "eth_getBlockByNumber" [latestBlockNumberHex; JBool true] ;;
     if negb (truthy block) then consoleWrite FailedToFetchBlock
     else
       (* Process block data *)
       ethBlock <- lift (toEthereumBlock block) ;;
       (* Fetch recent transactions with details *)
       items <- lift (let? v := Get block "transactions" in asArray v) ;;
       let txList := firstn 15 items in
       transactions <- forEachTx 0 txList [] ;;
       (* Fetch current gas price *)
       gasPriceHex <- rpcCall AtGasPrice "eth_gasPrice" [] ;;
       currentGasPrice <- lift (formatGwei gasPriceHex) ;;
       (* Network info *)
       let networkInfo := {| net_blockNumber := latestBlockNumber;
                             net_gasPrice := currentGasPrice;
                             net_txCount := List.length items |} in
       (* Update block history (keep last 20 blocks) *)
       writeCache (fun c => setBlockHistory (ethBlock :: blockHistory c) c) ;;
       c <- readCache ;;
       (if (20 <? List.length (blockHistory c))%nat
        then writeCache (setBlockHistory (firstn 20 (blockHistory c)))
        else ret tt) ;;
       (* Update gas price history *)
       timestamp <- lift (let? v := Get block "timestamp" in hexToDecimal v) ;;
       writeCache (fun c =>
         setGasPriceHistory
           ({| gpp_blockNumber := latestBlockNumber;
               gpp_gasPrice := parseFloat currentGasPrice;
               gpp_timestamp := timestamp |} :: gasPriceHistory c) c) ;;
       c <- readCache ;;
       (if (50 <? List.length (gasPriceHistory c))%nat
        then writeCache (setGasPriceHistory (firstn 50 (gasPriceHistory c)))
        else ret tt) ;;
       (* Simulate mempool stats *)
       r0 <- MathRandom 0 ;;
       r1 <- MathRandom 1 ;;
       let mempoolStats :=
         {| pendingCount := floor (add (mul r0 (literal 50000)) (literal 10000));
            avgGasPrice := currentGasPrice;
            totalValue := toFixed (add (mul r1 (literal 100)) (literal 50)) 2 |} in
       (* Update cache *)
       writeCache (setBlock (Some ethBlock)) ;;
       writeCache (setTransactions transactions) ;;
       writeCache (setNetworkInfo networkInfo) ;;
       writeCache (setMempoolStats mempoolStats) ;;
       t <- DateNow Commit ;;
       writeCache (setLastUpdate t) ;;
       consoleWrite (UpdatedEthereumData latestBlockNumber (List.length transactions)))
    (fun error => consoleWrite (ErrorFetchingEthereumData error)).

(** ** The HTTP surface *)

(** The value a handler hands to [c.json]. *)
Inductive Json : Type :=
| SnapshotJson (snapshot : Cache)
| HealthJson (status : string) (lastUpdate : Z) (blockNumber : Number)
| MempoolJson (stats : MempoolStats).

(** [GET /api/ethereum/snapshot]. *)
Definition snapshotRoute : Js Json :=
  t <- DateNow Arrival ;;
  c <- readCache ;;
  (* If cache is too old (> 30 seconds), refresh it *)
  (if 30000 <? t - lastUpdate c then fetchLatestBlockData else ret tt) ;;
  c <- readCache ;;
  ret (SnapshotJson c).

(** [GET /api/ethereum/health]. *)
Definition healthRoute : Js Json :=
  c <- readCache ;;
  ret (HealthJson "ok" (lastUpdate c) (net_blockNumber (networkInfo c))).

(** [GET /api/ethereum/mempool]. *)
Definition mempoolRoute : Js Json :=
  c <- readCache ;;
  ret (MempoolJson (mempoolStats c)).

(** ** Runs *)

(** A process holding cache [c] that has logged and posted nothing yet. *)
Definition holding (c : Cache) : Proc := {| cachedData := c; console := []; sent := [] |}.

(** One refresh cycle in world [w] on cache [c]. *)
Definition cycle (w : World) (c : Cache) : Proc := snd (fetchLatestBlockData w (holding c)).

(** A sequence of refresh cycles, one world each, whatever triggered
    them.  The statements of a cycle that touch [cachedData] (lines
    177-204) follow its last [await], so cycles that overlap in time still
    act on the cache one after the other. *)
Fixpoint cycles (ws : list World) (c : Cache) : Cache :=
  match ws with
  | [] => c
  | w :: rest => cycles rest (cachedData (cycle w c))
  end.

(** How a cycle ended, read off the last line it logged. *)
Definition failed (p : Proc) : bool :=
  match console p with
  | FailedToFetchBlock :: _ | ErrorFetchingEthereumData _ :: _ => true
  | _ => false
  end.

Definition updated (p : Proc) : bool :=
  match console p with
  | UpdatedEthereumData _ _ :: _ => true
  | _ => false
  end.

(** What the cycles of [ws], started on cache [c], left at the head of a
    history of the cache, one entry for each cycle that completed, the
    latest in front (and [acc] behind). *)
Fixpoint pushedOn {A : Type} (history : Cache -> list A) (ws : list World) (c : Cache)
    (acc : list A) : list A :=
  match ws with
  | [] => acc
  | w :: rest =>
      let p := cycle w c in
      pushedOn history rest (cachedData p)
        (if updated p
         then match history (cachedData p) with
              | x :: _ => x :: acc
              | [] => acc
              end
         else acc)
  end.

(** ** The cycle in two halves

    Everything a cycle learns from the world, and what it then does to the
    cache.  [cycle_split] below shows that [fetchLatestBlockData] is the one
    followed by the other. *)

(** The data of the [i]-th sampled transaction, as [transactionData]
    completes. *)
Definition dataOf (w : World) (i : nat) (tx : JsVal) : Completion JsVal :=
  if isString tx
  then answer w (AtTransaction i) {| method := "eth_getTransactionByHash"; params := [tx] |}
  else Normal tx.

(** What iteration [i] of the loop pushes, if anything. *)
Definition detail (w : World) (i : nat) (tx : JsVal) : option EthereumTransaction :=
  match dataOf w i tx with
  | Normal txData =>
      if truthy txData then
        match toEthereumTransaction txData with
        | Normal t => Some t
        | Throw _ => None
        end
      else None
  | Throw _ => None
  end.

Fixpoint details (w : World) (i : nat) (txList : list JsVal) : list EthereumTransaction :=
  match txList with
  | [] => []
  | tx :: rest =>
      match detail w i tx with
      | Some t => t :: details w (S i) rest
      | None => details w (S i) rest
      end
  end.

(** The results of one cycle that got to line 176. *)
Record Update : Type := {
  u_block : EthereumBlock;
  u_transactions : list EthereumTransaction;
  u_networkInfo : EthereumNetworkInfo;
  u_gasPoint : GasPricePoint;
  u_mempoolStats : MempoolStats;
  u_time : Z
}.

(** Lines 116-174 and the right-hand sides of lines 183-204: [Normal None]
    when there is no block, a throw when the cycle is abandoned. *)
Definition gather (w : World) : Completion (option Update) :=
  let? latestBlockNumberHex :=
    answer w AtBlockNumber {| method := "eth_blockNumber"; params := [] |} in
  let? latestBlockNumber := hexToDecimal latestBlockNumberHex in
  let? block :=
    answer w AtBlock {| method := "eth_getBlockByNumber";
                        params := [latestBlockNumberHex; JBool true] |} in
  if negb (truthy block) then Normal None
  else
    let? ethBlock := toEthereumBlock block in
    let? items := (let? v := Get block "transactions" in asArray v) in
    let? gasPriceHex := answer w AtGasPrice {| method := "eth_gasPrice"; params := [] |} in
    let? currentGasPrice := formatGwei gasPriceHex in
    Normal (Some
      {| u_block := ethBlock;
         u_transactions := details w 0 (firstn 15 items);
         u_networkInfo := {| net_blockNumber := latestBlockNumber;
                             net_gasPrice := currentGasPrice;
                             net_txCount := List.length items |};
         u_gasPoint := {| gpp_blockNumber := latestBlockNumber;
                          gpp_gasPrice := parseFloat currentGasPrice;
                          gpp_timestamp := blk_timestamp ethBlock |};
         u_mempoolStats :=
           {| pendingCount := floor (add (mul (random w 0%nat) (literal 50000)) (literal 10000));
              avgGasPrice := currentGasPrice;
              totalValue := toFixed (add (mul (random w 1%nat) (literal 100)) (literal 50)) 2 |};
         u_time := now w Commit |}).

(** [x] pushed on the front of a history kept to [n] entries. *)
Definition pushFront {A : Type} (n : nat) (x : A) (history : list A) : list A :=
  if (n <? List.length (x :: history))%nat then firstn n (x :: history) else x :: history.

(** Lines 176-204. *)
Definition install (u : Update) (c : Cache) : Cache :=
  {| block := Some (u_block u);
     transactions := u_transactions u;
     networkInfo := u_networkInfo u;
     blockHistory := pushFront 20 (u_block u) (blockHistory c);
     gasPriceHistory := pushFront 50 (u_gasPoint u) (gasPriceHistory c);
     mempoolStats := u_mempoolStats u;
     lastUpdate := u_time u |}.

(** The cache after a cycle, by the two halves. *)
Definition refreshed (w : World) (c : Cache) : Cache :=
  match gather w with
  | Normal (Some u) => install u c
  | _ => c
  end.

(** The same by the two halves: the [item] (block or gas-price sample) of
    every update that the worlds of [ws] gather, the latest in front of
    [acc]. *)
Fixpoint pushes {A : Type} (item : Update -> A) (ws : list World) (acc : list A) : list A :=
  match ws with
  | [] => acc
  | w :: rest =>
      match gather w with
      | Normal (Some u) => pushes item rest (item u :: acc)
      | _ => pushes item rest acc
      end
  end.



(** The line a cycle logs last. *)
Definition lastLine (w : World) : ConsoleLine :=
  match gather w with
  | Normal (Some u) =>
      UpdatedEthereumData (net_blockNumber (u_networkInfo u)) (List.length (u_transactions u))
  | Normal None => FailedToFetchBlock
  | Throw e => ErrorFetchingEthereumData e
  end.

(** Line 120 yields no block: the call throws or its result is falsy. *)
Definition noBlock (w : World) : Prop :=
  forall request : Rpc,
    match answer w AtBlock request with
    | Normal block => truthy block = false
    | Throw _ => True
    end.

(** Every step of a cycle outside the loop over the sampled transactions
    completes normally: the block number [latest], the block [block] with
    its normal form [ethBlock] and its transaction array [items], and the
    formatted gas price [price]. *)
Definition reaches (w : World) (latest : Number) (block : JsVal) (ethBlock : EthereumBlock)
    (items : list JsVal) (price : string) : Prop :=
  exists hex gasPriceHex : JsVal,
    answer w AtBlockNumber {| method := "eth_blockNumber"; params := [] |} = Normal hex
    /\ hexToDecimal hex = Normal latest
    /\ answer w AtBlock {| method := "eth_getBlockByNumber"; params := [hex; JBool true] |}
        = Normal block
    /\ truthy block = true
    /\ toEthereumBlock block = Normal ethBlock
    /\ (let? v := Get block "transactions" in asArray v) = Normal items
    /\ answer w AtGasPrice {| method := "eth_gasPrice"; params := [] |} = Normal gasPriceHex
    /\ formatGwei gasPriceHex = Normal price.

(** The fetch of iteration [i] fails: the element is a hash, and looking it
    up throws or yields nothing. *)
Definition fetchFails (w : World) (i : nat) (tx : JsVal) : bool :=
  isString tx
  && match dataOf w i tx with
     | Normal txData => negb (truthy txData)
     | Throw _ => true
     end.

(** Iteration [i] pushes a transaction. *)
Definition delivers (w : World) (i : nat) (tx : JsVal) : bool :=
  match detail w i tx with
  | Some _ => true
  | None => false
  end.

(** The [lastUpdate] and the [status] of a response. *)
Definition servedLastUpdate (r : Completion Json) : option Z :=
  match r with
  | Normal (SnapshotJson c) => Some (lastUpdate c)
  | Normal (HealthJson _ t _) => Some t
  | _ => None
  end.

Definition servedStatus (r : Completion Json) : option string :=
  match r with
  | Normal (HealthJson status _ _) => Some status
  | _ => None
  end.

(** Two requests handled one after the other. *)
Definition twoRequests {A B : Type} (first : Js A) (w1 : World) (second : Js B) (w2 : World)
    (p : Proc) : Proc :=
  snd (second w2 (snd (first w1 p))).

(** The current block is the head of the block history, and the head of
    the gas-price history was taken at the block number of [networkInfo]. *)
Definition headsAgree (c : Cache) : Prop :=
  hd_error (blockHistory c) = block c
  /\ match gasPriceHistory c with
     | [] => True
     | point :: _ =>
         gpp_blockNumber point = net_blockNumber (networkInfo c)
         /\ gpp_gasPrice point = parseFloat (net_gasPrice (networkInfo c))
     end.

(** ** The traffic and the log of a cycle *)

Definition blockNumberRequest : Rpc := {| method := "eth_blockNumber"; params := [] |}.

Definition blockRequest (hex : JsVal) : Rpc :=
  {| method := "eth_getBlockByNumber"; params := [hex; JBool true] |}.

Definition lookupRequest (tx : JsVal) : Rpc :=
  {| method := "eth_getTransactionByHash"; params := [tx] |}.

Definition gasPriceRequest : Rpc := {| method := "eth_gasPrice"; params := [] |}.

(** The array that line 142 slices, when the cycle gets there. *)
Definition sampledFrom (w : World) : option (list JsVal) :=
  match answer w AtBlockNumber blockNumberRequest with
  | Normal hex =>
      match hexToDecimal hex with
      | Normal _ =>
          match answer w AtBlock (blockRequest hex) with
          | Normal fetched =>
              if truthy fetched then
                match toEthereumBlock fetched with
                | Normal _ =>
                    match (let? v := Get fetched "transactions" in asArray v) with
                    | Normal items => Some items
                    | Throw _ => None
                    end
                | Throw _ => None
                end
              else None
          | Throw _ => None
          end
      | Throw _ => None
      end
  | Throw _ => None
  end.

(** The requests that a cycle posts, in the order in which it posts
    them. *)
Definition posted (w : World) : list Rpc :=
  blockNumberRequest
  :: match answer w AtBlockNumber blockNumberRequest with
     | Normal hex =>
         match hexToDecimal hex with
         | Normal _ =>
             blockRequest hex
             :: match sampledFrom w with
                | Some items =>
                    (map lookupRequest (filter isString (firstn 15 items))
                     ++ [gasPriceRequest])%list
                | None => []
                end
         | Throw _ => []
         end
     | Throw _ => []
     end.

(** The error that iteration [i] of the loop catches and logs, if any. *)
Definition txError (w : World) (i : nat) (tx : JsVal) : option JsError :=
  match dataOf w i tx with
  | Normal txData =>
      if truthy txData then
        match toEthereumTransaction txData with
        | Normal _ => None
        | Throw e => Some e
        end
      else None
  | Throw e => Some e
  end.

Fixpoint txErrors (w : World) (i : nat) (txList : list JsVal) : list JsError :=
  match txList with
  | [] => []
  | tx :: rest =>
      match txError w i tx with
      | Some e => e :: txErrors w (S i) rest
      | None => txErrors w (S i) rest
      end
  end.

(** Iteration [i] finds no data (a falsy value) and goes on silently. *)
Definition txAbsent (w : World) (i : nat) (tx : JsVal) : bool :=
  match dataOf w i tx with
  | Normal txData => negb (truthy txData)
  | Throw _ => false
  end.

Fixpoint countAbsent (w : World) (i : nat) (txList : list JsVal) : nat :=
  match txList with
  | [] => 0
  | tx :: rest => ((if txAbsent w i tx then 1 else 0) + countAbsent w (S i) rest)%nat
  end.

(** The lines that the loop of a cycle logs, newest first. *)
Definition txLines (w : World) : list ConsoleLine :=
  match sampledFrom w with
  | Some items => rev (map ErrorProcessingTransaction (txErrors w 0 (firstn 15 items)))
  | None => []
  end.

(** A string of hexadecimal digits only. *)
Fixpoint hexDigits (s : string) : bool :=
  match s with
  | EmptyString => true
  | String c rest =>
      match digitValue 16 c with
      | Some _ => hexDigits rest
      | None => false
      end
  end.

(** The parts of a snapshot that say the same thing agree: the gas price
    given with the mempool statistics is that of the network info, the
    transaction count of the network info is that of the current block,
    which lists as many hashes, and no more transactions are kept than the
    block has (nor than 15). *)
Definition coherent (c : Cache) : Prop :=
  avgGasPrice (mempoolStats c) = net_gasPrice (networkInfo c)
  /\ match block c with
     | Some b =>
         net_txCount (networkInfo c) = blk_txCount b
         /\ List.length (blk_transactions b) = blk_txCount b
         /\ (List.length (transactions c) <= Nat.min 15 (blk_txCount b))%nat
     | None => transactions c = []
     end.

(** Neither [null] nor [undefined]. *)
Definition present (v : JsVal) : Prop := v <> JNull /\ v <> JUndefined.

(** A JSON-RPC error response: a body that parses to an object without a
    [result] member. *)
Definition errorBody (wire : Wire) : Prop :=
  exists props, wire = Body (JObj props) /\ lookup "result" props = JUndefined.

(** What happens to the process: the timer fires (line 216; also the call
    at start-up, line 213), or a request for one of the three routes
    arrives.  Each comes with the world it meets. *)
Inductive Event : Type :=
| Tick (w : World)
| GetSnapshot (w : World)
| GetHealth (w : World)
| GetMempool (w : World).

Definition handle (ev : Event) (p : Proc) : Proc :=
  match ev with
  | Tick w => snd (fetchLatestBlockData w p)
  | GetSnapshot w => snd (snapshotRoute w p)
  | GetHealth w => snd (healthRoute w p)
  | GetMempool w => snd (mempoolRoute w p)
  end.

(** The process after a sequence of events, each handled to its end before
    the next. *)
Definition run (events : list Event) (p : Proc) : Proc :=
  fold_left (fun q ev => handle ev q) events p.

(** ** A caller: the fee estimator of the dashboard

    [fetchData] of the Ethereum page (lines 296-305 of the page's source)
    reads [mempoolStats.avgGasPrice] off the snapshot; the route serves a
    string there. *)

Record GasEstimate : Type := { slow : Number; standard : Number; fast : Number }.

(** The literals [0.8] and [1.2]. *)
Definition lit_0_8 : Number := ofRatio false 8 10.
Definition lit_1_2 : Number := ofRatio false 12 10.

(** [parseFloat(data.mempoolStats.avgGasPrice) || 10]. *)
Definition baseGas (avgGasPrice : string) : Number :=
  let parsed := parseFloat avgGasPrice in
  if truthy (JNum parsed) then parsed else literal 10.

Definition gasEstimate (avgGasPrice : string) : GasEstimate :=
  {| slow := parseFloat (toFixed (mul (baseGas avgGasPrice) lit_0_8) 2);
     standard := parseFloat (toFixed (baseGas avgGasPrice) 2);
     fast := parseFloat (toFixed (mul (baseGas avgGasPrice) lit_1_2) 2) |}.

(** How many of the cycles of [ws], started on [c], completed. *)
Fixpoint completed (ws : list World) (c : Cache) : nat :=
  match ws with
  | [] => 0
  | w :: rest =>
      ((if updated (cycle w c) then 1 else 0) + completed rest (cachedData (cycle w c)))%nat
  end.

(** ** Sample worlds *)

Module Sample.

(** A JSON-RPC 2.0 response body carrying [result]. *)
Definition envelope (result : JsVal) : Wire :=
  Body (JObj [("jsonrpc", JStr "2.0"); ("id", JNum (literal 1)); ("result", result)]).

(** A transfer of one ether at a gas price of one gwei in block 16. *)
Definition transfer (hash : string) (to : JsVal) : JsVal :=
  JObj [("hash", JStr hash); ("from", JStr "0xa0"); ("to", to);
        ("value", JStr "0xde0b6b3a7640000"); ("gasPrice", JStr "0x3b9aca00");
        ("gas", JStr "0x5208"); ("nonce", JStr "0x1"); ("blockNumber", JStr "0x10")].

(** A contract creation: the response has no [to] member. *)
Definition creation (hash : string) : JsVal :=
  JObj [("hash", JStr hash); ("from", JStr "0xa0");
        ("value", JStr "0x0"); ("gasPrice", JStr "0x3b9aca00");
        ("gas", JStr "0x5208"); ("nonce", JStr "0x2"); ("blockNumber", JStr "0x10")].

Definition blockJson (number : string) (txs : list JsVal) : JsVal :=
  JObj [("number", JStr number); ("hash", JStr "0xb10c"); ("timestamp", JStr "0x65000000");
        ("transactions", JArr txs); ("gasUsed", JStr "0x5208");
        ("gasLimit", JStr "0x1c9c380"); ("miner", JStr "0xc0")].

(** An endpoint at block [number] holding [txs]; [lookups] answers the
    transaction lookups by iteration. *)
Definition world (number : string) (txs : list JsVal) (lookups : nat -> Wire) (clock : Z)
  : World :=
  {| reply := fun site _ =>
       match site with
       | AtBlockNumber => envelope (JStr number)
       | AtBlock => envelope (blockJson number txs)
       | AtTransaction i => lookups i
       | AtGasPrice => envelope (JStr "0x77359400")
       end;
     random := fun k => match k with
                        | O => ofRatio false 1 2
                        | S _ => ofRatio false 1 4
                        end;
     now := fun _ => clock |}.

(** Block 16 with three transactions, the second given by its hash, whose
    lookup fails. *)
Definition oneLost (clock : Z) : World :=
  world "0x10" [transfer "0x01" (JStr "0xb0"); JStr "0x02"; creation "0x03"]
        (fun _ => Unreachable) clock.

(** A transaction as a node might return it without its [value]: line 153
    throws on it. *)
Definition valueless (hash : string) : JsVal :=
  JObj [("hash", JStr hash); ("from", JStr "0xa0"); ("to", JStr "0xb0");
        ("gasPrice", JStr "0x3b9aca00"); ("gas", JStr "0x5208"); ("nonce", JStr "0x1");
        ("blockNumber", JStr "0x10")].

(** Block 16 with three embedded transactions, the second without
    [value]; no lookup is made. *)
Definition oneBad (clock : Z) : World :=
  world "0x10" [transfer "0x01" (JStr "0xb0"); valueless "0x02"; creation "0x03"]
        (fun _ => Unreachable) clock.

(** Block 16 with two transactions given by their hashes: the lookup of
    the first fails, the lookup of the second returns data without
    [value]. *)
Definition lostAndBad (clock : Z) : World :=
  world "0x10" [JStr "0x01"; JStr "0x02"]
        (fun i => match i with
                  | O => Unreachable
                  | S _ => envelope (valueless "0x02")
                  end)
        clock.

(** Block 16 with twenty transactions. *)
Definition crowded (clock : Z) : World :=
  world "0x10" (repeat (transfer "0x01" (JStr "0xb0")) 20) (fun _ => Unreachable) clock.

(** The endpoint at block [number], without transactions. *)
Definition atBlock (number : string) (clock : Z) : World :=
  world number [] (fun _ => Unreachable) clock.

(** A load-balanced endpoint: it reports block 17 as the latest and then
    serves block 16 for it. *)
Definition lagging (clock : Z) : World :=
  {| reply := fun site _ =>
       match site with
       | AtBlockNumber => envelope (JStr "0x11")
       | AtBlock => envelope (blockJson "0x10" [transfer "0x01" (JStr "0xb0")])
       | AtTransaction _ => Unreachable
       | AtGasPrice => envelope (JStr "0x77359400")
       end;
     random := fun _ => zero;
     now := fun _ => clock |}.

(** The endpoint is unreachable. *)
Definition down (clock : Z) : World :=
  {| reply := fun _ _ => Unreachable; random := fun _ => zero; now := fun _ => clock |}.

(** The endpoint knows the block number but returns [null] for the block. *)
Definition blockless (clock : Z) : World :=
  {| reply := fun site _ =>
       match site with
       | AtBlockNumber => envelope (JStr "0x10")
       | _ => envelope JNull
       end;
     random := fun _ => zero;
     now := fun _ => clock |}.

End Sample.

(** * Properties *)

(** ** The built-ins on known values *)

Example parseInt_hex :
  parseInt (JStr "0x10") 16 = Normal (literal 16)
  /\ parseInt (JStr "ff") 16 = Normal (literal 255)
  /\ parseInt (JStr " -0X1fg") 16 = Normal (ofInteger true (-31))
  /\ parseInt (JStr "0x") 16 = Normal NaN
  /\ parseInt JUndefined 16 = Normal NaN
  /\ parseInt (JBool false) 16 = Normal (literal 250)
  /\ parseInt (JObj [("toString", JNull)]) 16 = Throw TypeError.
Proof. repeat split; vm_compute; reflexivity. Qed.

Example BigInt_of_values :
  BigInt (JStr "0xde0b6b3a7640000") = Normal (10 ^ 18)
  /\ BigInt (JStr " 12 ") = Normal 12
  /\ BigInt (JStr "") = Normal 0
  /\ BigInt (JStr "-15") = Normal (-15)
  /\ BigInt (JStr "0x") = Throw SyntaxError
  /\ BigInt (JStr "-0x1") = Throw SyntaxError
  /\ BigInt (JStr "1e3") = Throw SyntaxError
  /\ BigInt JUndefined = Throw TypeError
  /\ BigInt JNull = Throw TypeError
  /\ BigInt (JBool true) = Normal 1
  /\ BigInt (JNum (ofRatio false 3 2)) = Throw RangeError
  /\ BigInt (JArr [JStr "0x10"]) = Normal 16
  /\ BigInt (JObj []) = Throw SyntaxError.
Proof. repeat split; vm_compute; reflexivity. Qed.

Example Number_toString_values :
  Number_toString (literal 1000) = "1000"
  /\ Number_toString (literal (2 ^ 53)) = "9007199254740992"
  /\ Number_toString (literal (2 ^ 64)) = "18446744073709552000"
  /\ Number_toString (literal (10 ^ 21)) = "1e+21"
  /\ Number_toString (literal (10 ^ 23)) = "1e+23"
  /\ Number_toString (literal (2 ^ 1024)) = "Infinity"
  /\ Number_toString (ofInteger true (-42)) = "-42"
  /\ Number_toString (add (ofRatio false 1 10) (ofRatio false 2 10)) = "0.30000000000000004"
  /\ Number_toString (ofRatio false 123 10000000) = "0.0000123"
  /\ Number_toString (ofRatio false 5 1000000000) = "5e-9"
  /\ Number_toString NaN = "NaN".
Proof. repeat split; vm_compute; reflexivity. Qed.

Example toFixed_values :
  toFixed (ofRatio false 1005 1000) 2 = "1.00"
  /\ toFixed (ofRatio false 8345 1000) 2 = "8.35"
  /\ toFixed (ofRatio false 25 10) 0 = "3"
  /\ toFixed (ofRatio true 1 10000) 2 = "-0.00"
  /\ toFixed (literal 0) 6 = "0.000000"
  /\ toFixed (literal (10 ^ 21)) 2 = "1e+21"
  /\ toFixed Infinity 2 = "Infinity".
Proof. repeat split; vm_compute; reflexivity. Qed.

Example parseFloat_values :
  parseFloat "12.34" = ofRatio false 1234 100
  /\ parseFloat "  -.5e1x" = ofInteger true (-5)
  /\ parseFloat "1e+21" = literal (10 ^ 21)
  /\ parseFloat "-0.00" = S754_zero true
  /\ parseFloat "Infinity" = Infinity
  /\ parseFloat "." = NaN
  /\ parseFloat "abc" = NaN.
Proof. repeat split; vm_compute; reflexivity. Qed.

Example floor_values :
  floor (ofRatio false 35000999 1000) = literal 35000
  /\ floor (ofRatio true 1 2) = ofInteger true (-1)
  /\ floor (ofRatio false 1 2) = zero.
Proof. repeat split; vm_compute; reflexivity. Qed.

(** One cycle of the sample world, as the process would leave it. *)
Example sample_cycle :
  let c := cachedData (cycle (Sample.oneLost 1700000000000) initialCache) in
  map tx_hash (transactions c) = [JStr "0x01"; JStr "0x03"]
  /\ map tx_to (transactions c) = [JStr "0xb0"; JStr "Contract Creation"]
  /\ map tx_value (transactions c) = ["1.000000"; "0.000000"]
  /\ option_map blk_gasLimit (block c) = Some "30000000"
  /\ networkInfo c = {| net_blockNumber := literal 16; net_gasPrice := "2.00";
                        net_txCount := 3 |}
  /\ mempoolStats c = {| pendingCount := literal 35000; avgGasPrice := "2.00";
                         totalValue := "75.00" |}
  /\ lastUpdate c = 1700000000000
  /\ console (cycle (Sample.oneLost 1700000000000) initialCache)
     = [UpdatedEthereumData (literal 16) 2; ErrorProcessingTransaction FetchError]
  /\ map method (sent (cycle (Sample.oneLost 1700000000000) initialCache))
     = ["eth_gasPrice"; "eth_getTransactionByHash"; "eth_getBlockByNumber"; "eth_blockNumber"].
Proof. repeat split; vm_compute; reflexivity. Qed.

Ltac js_unfold :=
  cbv beta iota zeta delta [bind tryCatch ret lift consoleWrite writeCache readCache rpcCall
                       DateNow MathRandom transactionData].

(** ** The cycle, step by step *)

(** The loop over the sampled transactions never throws, leaves the cache
    alone and returns what [details] lists. *)
Lemma forEachTx_spec (w : World) (txList : list JsVal) :
  forall (i : nat) (acc : list EthereumTransaction) (p : Proc),
  exists p' : Proc,
    forEachTx i txList acc w p = (Normal (acc ++ details w i txList)%list, p')
    /\ cachedData p' = cachedData p
    /\ exists l : list Rpc, sent p' = (l ++ sent p)%list.
Proof.
  induction txList as [| tx rest IH]; intros i acc p; cbn [forEachTx details].
  - exists p. unfold ret. rewrite app_nil_r. repeat split. now exists [].
  - js_unfold. unfold detail, dataOf.
    assert (Hend : forall a q,
              cachedData q = cachedData p ->
              (exists l, sent q = (l ++ sent p)%list) ->
              exists p', forEachTx (S i) rest a w q = (Normal (a ++ details w (S i) rest)%list, p')
                /\ cachedData p' = cachedData p
                /\ exists l, sent p' = (l ++ sent p)%list).
    { intros a q Hc [l Hl]. destruct (IH (S i) a q) as (p' & E & Hc' & l' & Hl').
      exists p'. split; [exact E |]. split; [congruence |].
      exists (l' ++ l)%list. rewrite Hl', Hl. apply app_assoc. }
    destruct (isString tx); cbv beta iota.
    + destruct (answer w (AtTransaction i) _) as [txData | e]; cbv beta iota.
      * destruct (truthy txData); cbv beta iota.
        -- destruct (toEthereumTransaction txData) as [t | e]; cbv beta iota.
           ++ replace (acc ++ t :: details w (S i) rest)%list
                with ((acc ++ [t]) ++ details w (S i) rest)%list
                by (rewrite <- app_assoc; reflexivity).
              apply Hend; cbn; [reflexivity |].
              now exists [{| method := "eth_getTransactionByHash"; params := [tx] |}].
           ++ apply Hend; cbn; [reflexivity |].
              now exists [{| method := "eth_getTransactionByHash"; params := [tx] |}].
        -- apply Hend; cbn; [reflexivity |].
           now exists [{| method := "eth_getTransactionByHash"; params := [tx] |}].
      * apply Hend; cbn; [reflexivity |].
        now exists [{| method := "eth_getTransactionByHash"; params := [tx] |}].
    + destruct (truthy tx); cbv beta iota.
      * destruct (toEthereumTransaction tx) as [t | e]; cbv beta iota.
        -- replace (acc ++ t :: details w (S i) rest)%list
                with ((acc ++ [t]) ++ details w (S i) rest)%list
                by (rewrite <- app_assoc; reflexivity).
              apply Hend; [reflexivity | now exists []].
        -- apply Hend; cbn; [reflexivity | now exists []].
      * apply Hend; [reflexivity | now exists []].
Qed.

(** Line 186 reads the timestamp that line 131 has read already. *)
Lemma toEthereumBlock_timestamp (block : JsVal) (b : EthereumBlock) :
  toEthereumBlock block = Normal b ->
  (let? v := Get block "timestamp" in hexToDecimal v) = Normal (blk_timestamp b).
Proof.
  unfold toEthereumBlock. intros H.
  destruct (let? v := Get block "number" in hexToDecimal v); cbn [andThen] in H; [| discriminate].
  destruct (Get block "hash"); cbn [andThen] in H; [| discriminate].
  destruct (let? v := Get block "timestamp" in hexToDecimal v) as [ts |];
    cbn [andThen] in H; [| discriminate].
  repeat (unfold andThen at 1 in H; 
   match type of H with
  | match ?c with Normal _ => _ | Throw _ => _ end = _ =>
      destruct c; [| discriminate]
  end).
  injection H as <-. reflexivity.
Qed.

(** [fetchLatestBlockData] always resolves; it gathers, then installs. *)
Lemma cycle_split (w : World) (p : Proc) :
  exists p' : Proc,
    fetchLatestBlockData w p = (Normal tt, p')
    /\ cachedData p' = refreshed w (cachedData p)
    /\ (exists older, console p' = lastLine w :: older)
    /\ (exists l, sent p' = (l ++ {| method := "eth_blockNumber"; params := [] |} :: sent p)%list).
Proof.
  unfold fetchLatestBlockData, refreshed, lastLine, gather. js_unfold.
  destruct (answer w AtBlockNumber _) as [hex | e]; cbn [andThen]; cbv beta iota.
  2: { eexists; split; [reflexivity |]; cbn. repeat split; [now eexists | now exists []]. }
  destruct (hexToDecimal hex) as [latest | e]; cbn [andThen]; cbv beta iota.
  2: { eexists; split; [reflexivity |]; cbn. repeat split; [now eexists | now exists []]. }
  destruct (answer w AtBlock _) as [block | e]; cbn [andThen]; cbv beta iota.
  2: { eexists; split; [reflexivity |]; cbn. repeat split; [now eexists | now eexists [_]]. }
  destruct (truthy block); cbn [negb]; cbv beta iota.
  2: { eexists; split; [reflexivity |]; cbn. repeat split; [now eexists | now eexists [_]]. }
  destruct (toEthereumBlock block) as [ethBlock | e] eqn:Eb; cbn [andThen]; cbv beta iota.
  2: { eexists; split; [reflexivity |]; cbn. repeat split; [now eexists | now eexists [_]]. }
  destruct (let? v := Get block "transactions" in asArray v) as [items | e];
    cbn [andThen]; cbv beta iota.
  2: { eexists; split; [reflexivity |]; cbn. repeat split; [now eexists | now eexists [_]]. }
  cbn [cachedData console sent].
  match goal with |- context [forEachTx 0 (firstn 15 items) [] w ?q] =>
    destruct (forEachTx_spec w (firstn 15 items) 0 [] q) as (p2 & E & Hc & l & Hl) end.
  rewrite E. cbn [app cachedData console sent] in *. cbv beta iota.
  assert (Hsent : forall pre, exists l',
            (pre ++ sent p2 = l' ++ {| method := "eth_blockNumber"; params := [] |} :: sent p)%list).
  { intros pre. exists (pre ++ l ++ [{| method := "eth_getBlockByNumber";
                                         params := [hex; JBool true] |}])%list.
    rewrite Hl, <- !app_assoc. reflexivity. }
  destruct (answer w AtGasPrice _) as [gasPriceHex | e]; cbn [andThen]; cbv beta iota.
  2: { eexists; split; [reflexivity |]; cbn [cachedData console sent].
       repeat split; [exact Hc | now eexists | apply (Hsent [_]) ]. }
  destruct (formatGwei gasPriceHex) as [currentGasPrice | e]; cbn [andThen]; cbv beta iota.
  2: { eexists; split; [reflexivity |]; cbn [cachedData console sent].
       repeat split; [exact Hc | now eexists | apply (Hsent [_]) ]. }
  cbn [cachedData console sent].
  rewrite (toEthereumBlock_timestamp _ _ Eb). cbv beta iota.
  unfold install, pushFront.
  cbn [cachedData console sent blockHistory gasPriceHistory setBlockHistory setGasPriceHistory
       u_block u_transactions u_networkInfo u_gasPoint u_mempoolStats u_time].
  rewrite Hc.
  destruct (20 <? _)%nat; cbv beta iota;
    cbn [cachedData console sent blockHistory gasPriceHistory setBlockHistory setGasPriceHistory];
    rewrite ?Hc;
    (destruct (50 <? _)%nat; cbv beta iota;
     (eexists; split; [reflexivity |]; cbn [cachedData console sent];
      split; [reflexivity | split; [now eexists | apply (Hsent [_]) ]])).
Qed.

Lemma cycle_cache (w : World) (c : Cache) : cachedData (cycle w c) = refreshed w c.
Proof.
  unfold cycle. destruct (cycle_split w (holding c)) as (p' & E & Hc & _).
  rewrite E. exact Hc.
Qed.

Lemma cycle_console (w : World) (c : Cache) :
  exists older : list ConsoleLine, console (cycle w c) = lastLine w :: older.
Proof.
  unfold cycle. destruct (cycle_split w (holding c)) as (p' & E & _ & Hl & _).
  rewrite E. exact Hl.
Qed.

Lemma failed_gather (w : World) (c : Cache) :
  failed (cycle w c) = match gather w with
                       | Normal (Some _) => false
                       | _ => true
                       end.
Proof.
  unfold failed. destruct (cycle_console w c) as [older ->]. unfold lastLine.
  destruct (gather w) as [[u |] | e]; reflexivity.
Qed.

Lemma updated_gather (w : World) (c : Cache) :
  updated (cycle w c) = match gather w with
                        | Normal (Some _) => true
                        | _ => false
                        end.
Proof.
  unfold updated. destruct (cycle_console w c) as [older ->]. unfold lastLine.
  destruct (gather w) as [[u |] | e]; reflexivity.
Qed.

(** A cycle ends in exactly one of the two ways. *)
Lemma failed_or_updated (w : World) (c : Cache) :
  failed (cycle w c) = negb (updated (cycle w c)).
Proof.
  rewrite failed_gather, updated_gather. destruct (gather w) as [[u |] | e]; reflexivity.
Qed.

Lemma noBlock_gather (w : World) :
  noBlock w -> gather w = Normal None \/ exists e, gather w = Throw e.
Proof.
  intros H. unfold gather.
  destruct (answer w AtBlockNumber _) as [hex | e]; cbn [andThen]; [| right; now exists e].
  destruct (hexToDecimal hex) as [latest | e]; cbn [andThen]; [| right; now exists e].
  specialize (H {| method := "eth_getBlockByNumber"; params := [hex; JBool true] |}).
  destruct (answer w AtBlock _) as [block | e]; cbn [andThen]; [| right; now exists e].
  rewrite H. left. reflexivity.
Qed.

Lemma failed_cache (w : World) (c : Cache) :
  failed (cycle w c) = true -> cachedData (cycle w c) = c.
Proof.
  rewrite failed_gather, cycle_cache. unfold refreshed.
  destruct (gather w) as [[u |] | e]; [discriminate | reflexivity | reflexivity].
Qed.

(** ** C1: a failed cycle leaves the cache as it was *)

(** C1.  A refresh cycle that fails - it logs 'Failed to fetch block' or
    'Error fetching Ethereum data:' as its last line - leaves every field of
    [cachedData] as it was, [blockHistory], [gasPriceHistory] and
    [lastUpdate] included; and a cycle whose block fetch returns no block
    fails in this sense. *)
Theorem failed_cycle_keeps_cache (w : World) (c : Cache) :
  (failed (cycle w c) = true -> cachedData (cycle w c) = c)
  /\ (noBlock w -> failed (cycle w c) = true /\ cachedData (cycle w c) = c).
Proof.
  split; [apply failed_cache |].
  intros H. rewrite failed_gather, cycle_cache. unfold refreshed.
  destruct (noBlock_gather w H) as [-> | [e ->]]; split; reflexivity.
Qed.

Lemma failed_cycle_keeps_cache_witness :
  (failed (cycle (Sample.down 45000) initialCache) = true
   /\ cachedData (cycle (Sample.down 45000) initialCache) = initialCache)
  /\ (failed (cycle (Sample.blockless 45000) initialCache) = true
      /\ cachedData (cycle (Sample.blockless 45000) initialCache) = initialCache).
Proof.
  split.
  - split; [vm_compute; reflexivity |].
    apply (proj1 (failed_cycle_keeps_cache (Sample.down 45000) initialCache)).
    vm_compute; reflexivity.
  - apply (proj2 (failed_cycle_keeps_cache (Sample.blockless 45000) initialCache)).
    intros request. vm_compute. reflexivity.
Defined.

(** ** Histories *)

Lemma pushFront_firstn {A : Type} (n : nat) (x : A) (history : list A) :
  pushFront n x history = firstn n (x :: history).
Proof.
  unfold pushFront. destruct (Nat.ltb_spec n (List.length (x :: history))) as [H | H].
  - reflexivity.
  - symmetry. apply firstn_all2. exact H.
Qed.

Lemma pushes_app {A : Type} (item : Update -> A) (ws : list World) :
  forall acc : list A, pushes item ws acc = (pushes item ws [] ++ acc)%list.
Proof.
  induction ws as [| w rest IH]; intros acc; cbn [pushes].
  - reflexivity.
  - destruct (gather w) as [[u |] | e]; try apply IH.
    rewrite (IH (item u :: acc)), (IH [item u]), <- app_assoc. reflexivity.
Qed.

Lemma firstn_app_firstn {A : Type} (n : nat) (l x : list A) :
  firstn n (l ++ firstn n x) = firstn n (l ++ x).
Proof.
  rewrite !firstn_app, firstn_firstn.
  replace (Nat.min (n - List.length l) n) with (n - List.length l)%nat by lia.
  reflexivity.
Qed.

Lemma cycles_step (w : World) (rest : list World) (c : Cache) :
  cycles (w :: rest) c = cycles rest (refreshed w c).
Proof. cbn [cycles]. rewrite cycle_cache. reflexivity. Qed.

(** A history that every installation pushes on, kept to [n] entries, holds
    the last [n] things pushed, newest first. *)
Lemma history_firstn {A : Type} (item : Update -> A) (history : Cache -> list A) (n : nat) :
  (forall u c, history (install u c) = pushFront n (item u) (history c)) ->
  forall (ws : list World) (c : Cache),
    (List.length (history c) <= n)%nat ->
    history (cycles ws c) = firstn n (pushes item ws (history c)).
Proof.
  intros Hpush ws. induction ws as [| w rest IH]; intros c Hlen.
  - cbn [cycles pushes]. symmetry. apply firstn_all2. exact Hlen.
  - rewrite cycles_step. cbn [pushes]. unfold refreshed.
    destruct (gather w) as [[u |] | e]; try (apply IH; exact Hlen).
    rewrite IH; rewrite Hpush, pushFront_firstn.
    + rewrite pushes_app, firstn_app_firstn, <- pushes_app. reflexivity.
    + apply firstn_le_length.
Qed.

(** What the completed cycles left at the head is what they gathered. *)
Lemma pushedOn_pushes {A : Type} (item : Update -> A) (history : Cache -> list A) (n : nat) :
  (forall u c, history (install u c) = pushFront (S n) (item u) (history c)) ->
  forall (ws : list World) (c : Cache) (acc : list A),
    pushedOn history ws c acc = pushes item ws acc.
Proof.
  intros Hpush ws. induction ws as [| w rest IH]; intros c acc; cbn [pushedOn pushes].
  - reflexivity.
  - rewrite updated_gather, cycle_cache. unfold refreshed.
    destruct (gather w) as [[u |] | e]; try apply IH.
    rewrite Hpush, pushFront_firstn. cbn [firstn]. apply IH.
Qed.

Lemma blockHistory_pushed (ws : list World) :
  blockHistory (cycles ws initialCache)
  = firstn 20 (pushedOn blockHistory ws initialCache []).
Proof.
  rewrite (pushedOn_pushes u_block blockHistory 19 (fun _ _ => eq_refl)).
  apply (history_firstn u_block blockHistory 20 (fun _ _ => eq_refl) ws initialCache).
  cbn. lia.
Qed.

Lemma gasPriceHistory_pushed (ws : list World) :
  gasPriceHistory (cycles ws initialCache)
  = firstn 50 (pushedOn gasPriceHistory ws initialCache []).
Proof.
  rewrite (pushedOn_pushes u_gasPoint gasPriceHistory 49 (fun _ _ => eq_refl)).
  apply (history_firstn u_gasPoint gasPriceHistory 50 (fun _ _ => eq_refl) ws initialCache).
  cbn. lia.
Qed.



Lemma gather_gasPoint (w : World) (u : Update) :
  gather w = Normal (Some u) ->
  gpp_blockNumber (u_gasPoint u) = net_blockNumber (u_networkInfo u)
  /\ gpp_gasPrice (u_gasPoint u) = parseFloat (net_gasPrice (u_networkInfo u)).
Proof.
  unfold gather. intros H.
  repeat match type of H with
         | andThen ?c _ = _ => destruct c; cbn [andThen] in H; [| discriminate]
         | (if ?b then _ else _) = _ => destruct b; [discriminate |]
         end.
  injection H as <-. split; reflexivity.
Qed.

Lemma headsAgree_cycles (ws : list World) :
  forall c : Cache, headsAgree c -> headsAgree (cycles ws c).
Proof.
  induction ws as [| w rest IH]; intros c H; [exact H |].
  rewrite cycles_step. apply IH. unfold refreshed.
  destruct (gather w) as [[u |] | e] eqn:E; try exact H.
  unfold headsAgree, install; cbn [blockHistory block gasPriceHistory networkInfo].
  rewrite !pushFront_firstn. cbn [firstn hd_error]. split; [reflexivity |].
  apply (gather_gasPoint w u E).
Qed.

(** ** C2: the order of the block history *)




(** ** C3: the histories are bounded and newest first *)

(** C3.  After any sequence of refresh cycles from the initial cache the
    block history has at most 20 entries and the gas-price history at most
    50; each holds the latest pushes, the most recent first: the head of
    the block history is the current block, and the head of the gas-price
    history is the sample taken with the current network info. *)
Theorem histories_bounded_newest_first (ws : list World) :
  (List.length (blockHistory (cycles ws initialCache)) <= 20)%nat
  /\ (List.length (gasPriceHistory (cycles ws initialCache)) <= 50)%nat
  /\ blockHistory (cycles ws initialCache)
     = firstn 20 (pushedOn blockHistory ws initialCache [])
  /\ gasPriceHistory (cycles ws initialCache)
     = firstn 50 (pushedOn gasPriceHistory ws initialCache [])
  /\ headsAgree (cycles ws initialCache).
Proof.
  split; [rewrite blockHistory_pushed; apply firstn_le_length |].
  split; [rewrite gasPriceHistory_pushed; apply firstn_le_length |].
  split; [apply blockHistory_pushed |].
  split; [apply gasPriceHistory_pushed |].
  apply headsAgree_cycles. split; [reflexivity | exact I].
Qed.

(** ** What a cycle gathers *)

Lemma reaches_gather (w : World) (latest : Number) (block : JsVal) (ethBlock : EthereumBlock)
    (items : list JsVal) (price : string) :
  reaches w latest block ethBlock items price ->
  gather w = Normal (Some
    {| u_block := ethBlock;
       u_transactions := details w 0 (firstn 15 items);
       u_networkInfo := {| net_blockNumber := latest;
                           net_gasPrice := price;
                           net_txCount := List.length items |};
       u_gasPoint := {| gpp_blockNumber := latest;
                        gpp_gasPrice := parseFloat price;
                        gpp_timestamp := blk_timestamp ethBlock |};
       u_mempoolStats :=
         {| pendingCount := floor (add (mul (random w 0%nat) (literal 50000)) (literal 10000));
            avgGasPrice := price;
            totalValue := toFixed (add (mul (random w 1%nat) (literal 100)) (literal 50)) 2 |};
       u_time := now w Commit |}).
Proof.
  intros (hex & gasPriceHex & H1 & H2 & H3 & H4 & H5 & H6 & H7 & H8).
  unfold gather. rewrite H1; cbn [andThen]. rewrite H2; cbn [andThen].
  rewrite H3; cbn [andThen]. rewrite H4; cbn [negb]. rewrite H5; cbn [andThen].
  rewrite H6; cbn [andThen]. rewrite H7; cbn [andThen]. rewrite H8; cbn [andThen].
  reflexivity.
Qed.

Lemma gather_reaches (w : World) (u : Update) :
  gather w = Normal (Some u) ->
  exists latest fetched ethBlock items price,
    reaches w latest fetched ethBlock items price
    /\ u_block u = ethBlock
    /\ u_transactions u = details w 0 (firstn 15 items)
    /\ u_time u = now w Commit.
Proof.
  unfold gather, reaches. intros H.
  destruct (answer w AtBlockNumber _) as [hex |] eqn:H1; cbn [andThen] in H; [| discriminate].
  destruct (hexToDecimal hex) as [latest |] eqn:H2; cbn [andThen] in H; [| discriminate].
  destruct (answer w AtBlock _) as [fetched |] eqn:H3; cbn [andThen] in H; [| discriminate].
  destruct (truthy fetched) eqn:H4; cbn [negb] in H; [| discriminate].
  destruct (toEthereumBlock fetched) as [ethBlock |] eqn:H5; cbn [andThen] in H; [| discriminate].
  destruct (let? v := Get fetched "transactions" in asArray v) as [items |] eqn:H6;
    cbn [andThen] in H; [| discriminate].
  destruct (answer w AtGasPrice _) as [gasPriceHex |] eqn:H7; cbn [andThen] in H; [| discriminate].
  destruct (formatGwei gasPriceHex) as [price |] eqn:H8; cbn [andThen] in H; [| discriminate].
  injection H as <-.
  exists latest, fetched, ethBlock, items, price. split; [| repeat split].
  exists hex, gasPriceHex. repeat split; assumption.
Qed.

(** ** The sampled transactions *)

Lemma details_length_le (w : World) (txList : list JsVal) :
  forall i : nat, (List.length (details w i txList) <= List.length txList)%nat.
Proof.
  induction txList as [| tx rest IH]; intros i; cbn [details List.length]; [lia |].
  destruct (detail w i tx); cbn [List.length]; specialize (IH (S i)); lia.
Qed.

Lemma details_all (w : World) (txList : list JsVal) :
  forall i : nat,
    (forall j, (j < List.length txList)%nat ->
               delivers w (i + j) (nth j txList JUndefined) = true) ->
    List.length (details w i txList) = List.length txList.
Proof.
  induction txList as [| tx rest IH]; intros i H; cbn [details List.length]; [reflexivity |].
  pose proof (H 0%nat) as H0. cbn [nth List.length] in H0. rewrite Nat.add_0_r in H0.
  unfold delivers in H0. destruct (detail w i tx); [| specialize (H0 ltac:(lia)); discriminate].
  cbn [List.length]. f_equal. apply IH. intros j Hj.
  specialize (H (S j)). cbn [nth List.length] in H.
  replace (S i + j)%nat with (i + S j)%nat by lia. apply H. lia.
Qed.

(** When one iteration pushes nothing and every other pushes, the loop
    returns one transaction less than it was given. *)
Lemma details_one_missing (w : World) (txList : list JsVal) :
  forall i k : nat,
    (k < List.length txList)%nat ->
    detail w (i + k) (nth k txList JUndefined) = None ->
    (forall j, (j < List.length txList)%nat -> j <> k ->
               delivers w (i + j) (nth j txList JUndefined) = true) ->
    List.length (details w i txList) = (List.length txList - 1)%nat.
Proof.
  induction txList as [| tx rest IH]; intros i k Hk Hnone Hrest; cbn [List.length] in *; [lia |].
  cbn [details]. destruct k as [| k].
  - cbn [nth] in Hnone. rewrite Nat.add_0_r in Hnone. rewrite Hnone.
    rewrite Nat.sub_succ, Nat.sub_0_r. apply details_all. intros j Hj.
    specialize (Hrest (S j)). cbn [nth] in Hrest.
    replace (S i + j)%nat with (i + S j)%nat by lia. apply Hrest; lia.
  - pose proof (Hrest 0%nat) as H0. cbn [nth] in H0. rewrite Nat.add_0_r in H0.
    unfold delivers in H0.
    destruct (detail w i tx); [| specialize (H0 ltac:(lia) ltac:(lia)); discriminate].
    cbn [List.length]. rewrite (IH (S i) k).
    + lia.
    + lia.
    + cbn [nth] in Hnone. replace (S i + k)%nat with (i + S k)%nat by lia. exact Hnone.
    + intros j Hj Hjk. specialize (Hrest (S j)). cbn [nth] in Hrest.
      replace (S i + j)%nat with (i + S j)%nat by lia. apply Hrest; lia.
Qed.

Lemma fetchFails_detail (w : World) (i : nat) (tx : JsVal) :
  fetchFails w i tx = true -> detail w i tx = None.
Proof.
  unfold fetchFails, detail. intros H. apply andb_prop in H as [_ H].
  destruct (dataOf w i tx) as [txData | e]; [| reflexivity].
  destruct (truthy txData); [discriminate | reflexivity].
Qed.

(** ** C4: one skipped transaction costs one entry, not the cycle *)

(** An iteration pushes nothing exactly when it logs an error or finds no
    data. *)
Lemma detail_none (w : World) (i : nat) (tx : JsVal) :
  detail w i tx = None <-> txError w i tx <> None \/ txAbsent w i tx = true.
Proof.
  unfold detail, txError, txAbsent.
  destruct (dataOf w i tx) as [txData | e].
  - destruct (truthy txData); cbn [negb].
    + destruct (toEthereumTransaction txData) as [t | e]; split.
      * discriminate.
      * intros [H | H]; [contradiction H; reflexivity | discriminate].
      * intros _. left. discriminate.
      * reflexivity.
    + split; [intros _; right; reflexivity | reflexivity].
  - split; [intros _; left; discriminate | reflexivity].
Qed.

(** C4, amended.  Let a cycle sample the [N] transactions [firstn 15 items]
    ([N <= 15]), and let exactly one iteration of the loop of lines 144-163
    push nothing - the one at position [k], whether the lookup of a hash
    throws or returns nothing or the data, looked up or embedded in the
    block, cannot be normalized - while every other iteration pushes.  Then
    the loop completes normally with exactly [N - 1] transactions, whatever
    the state of the process; and the cycle, its other steps completing,
    ends with its final log line and stores that list of [N - 1] entries,
    the current block, the network info, both histories, the mempool
    statistics and [lastUpdate]. *)
Theorem one_skipped_transaction_costs_one
    (w : World) (c : Cache) (items : list JsVal) (k : nat)
    (Hk : (k < List.length (firstn 15 items))%nat)
    (Hnone : detail w k (nth k (firstn 15 items) JUndefined) = None)
    (Hrest : forall j, (j < List.length (firstn 15 items))%nat -> j <> k ->
                       delivers w j (nth j (firstn 15 items) JUndefined) = true) :
  (List.length (firstn 15 items) <= 15)%nat
  /\ (forall p : Proc,
        exists (sampled : list EthereumTransaction) (p' : Proc),
          forEachTx 0 (firstn 15 items) [] w p = (Normal sampled, p')
          /\ List.length sampled = (List.length (firstn 15 items) - 1)%nat
          /\ cachedData p' = cachedData p)
  /\ (forall (latest : Number) (response : JsVal) (ethBlock : EthereumBlock) (price : string),
        reaches w latest response ethBlock items price ->
        updated (cycle w c) = true
        /\ List.length (transactions (cachedData (cycle w c)))
           = (List.length (firstn 15 items) - 1)%nat
        /\ block (cachedData (cycle w c)) = Some ethBlock
        /\ networkInfo (cachedData (cycle w c))
           = {| net_blockNumber := latest; net_gasPrice := price;
                net_txCount := List.length items |}
        /\ blockHistory (cachedData (cycle w c)) = firstn 20 (ethBlock :: blockHistory c)
        /\ gasPriceHistory (cachedData (cycle w c))
           = firstn 50 ({| gpp_blockNumber := latest;
                           gpp_gasPrice := parseFloat price;
                           gpp_timestamp := blk_timestamp ethBlock |} :: gasPriceHistory c)
        /\ mempoolStats (cachedData (cycle w c))
           = {| pendingCount :=
                  floor (add (mul (random w 0%nat) (literal 50000)) (literal 10000));
                avgGasPrice := price;
                totalValue :=
                  toFixed (add (mul (random w 1%nat) (literal 100)) (literal 50)) 2 |}
        /\ lastUpdate (cachedData (cycle w c)) = now w Commit).
Proof.
  assert (Hlen : List.length (details w 0 (firstn 15 items))
                 = (List.length (firstn 15 items) - 1)%nat).
  { exact (details_one_missing w (firstn 15 items) 0 k Hk Hnone Hrest). }
  split; [apply firstn_le_length |]. split.
  - intros p. destruct (forEachTx_spec w (firstn 15 items) 0 [] p) as (p' & E & Hc & _).
    exists (details w 0 (firstn 15 items)), p'. split; [exact E |]. split; [exact Hlen | exact Hc].
  - intros latest response ethBlock price Hsteps.
    rewrite updated_gather, cycle_cache. unfold refreshed.
    rewrite (reaches_gather _ _ _ _ _ _ Hsteps).
    unfold install; cbn -[firstn details parseFloat floor toFixed add mul literal].
    rewrite !pushFront_firstn.
    repeat split. exact Hlen.
Qed.

(** The theorem at a block whose second transaction is a hash that cannot
    be looked up, and at a block whose second transaction is embedded
    without its value: two of three are stored, and the cycle completes. *)
Lemma one_skipped_transaction_costs_one_witness :
  (List.length (transactions (cachedData (cycle (Sample.oneLost 1000) initialCache))) = 2%nat
   /\ updated (cycle (Sample.oneLost 1000) initialCache) = true
   /\ lastUpdate (cachedData (cycle (Sample.oneLost 1000) initialCache)) = 1000)
  /\ (List.length (transactions (cachedData (cycle (Sample.oneBad 1000) initialCache))) = 2%nat
      /\ updated (cycle (Sample.oneBad 1000) initialCache) = true
      /\ lastUpdate (cachedData (cycle (Sample.oneBad 1000) initialCache)) = 1000).
Proof.
  split.
  - assert (Hsteps : reaches (Sample.oneLost 1000) (literal 16)
              (Sample.blockJson "0x10"
                 [Sample.transfer "0x01" (JStr "0xb0"); JStr "0x02"; Sample.creation "0x03"])
              {| blk_number := literal 16; blk_hash := JStr "0xb10c";
                 blk_timestamp := literal 1694498816;
                 blk_transactions := [JStr "0x01"; JStr "0x02"; JStr "0x03"];
                 blk_gasUsed := "21000"; blk_gasLimit := "30000000";
                 blk_miner := JStr "0xc0"; blk_difficulty := "0"; blk_txCount := 3 |}
              [Sample.transfer "0x01" (JStr "0xb0"); JStr "0x02"; Sample.creation "0x03"]
              "2.00").
    { exists (JStr "0x10"), (JStr "0x77359400"). repeat split; vm_compute; reflexivity. }
    pose proof (one_skipped_transaction_costs_one (Sample.oneLost 1000) initialCache
                  [Sample.transfer "0x01" (JStr "0xb0"); JStr "0x02"; Sample.creation "0x03"]
                  1%nat) as H.
    destruct H as (_ & _ & H).
    + vm_compute. lia.
    + vm_compute. reflexivity.
    + intros j Hj Hjk. change (List.length _) with 3%nat in Hj.
      destruct j as [| [| [| j]]]; [vm_compute; reflexivity | lia | vm_compute; reflexivity | lia].
    + destruct (H _ _ _ _ Hsteps) as (Hup & Hlen & _ & _ & _ & _ & _ & Htime).
      split; [exact Hlen | split; [exact Hup | exact Htime]].
  - assert (Hsteps : reaches (Sample.oneBad 1000) (literal 16)
              (Sample.blockJson "0x10"
                 [Sample.transfer "0x01" (JStr "0xb0"); Sample.valueless "0x02";
                  Sample.creation "0x03"])
              {| blk_number := literal 16; blk_hash := JStr "0xb10c";
                 blk_timestamp := literal 1694498816;
                 blk_transactions := [JStr "0x01"; JStr "0x02"; JStr "0x03"];
                 blk_gasUsed := "21000"; blk_gasLimit := "30000000";
                 blk_miner := JStr "0xc0"; blk_difficulty := "0"; blk_txCount := 3 |}
              [Sample.transfer "0x01" (JStr "0xb0"); Sample.valueless "0x02";
               Sample.creation "0x03"]
              "2.00").
    { exists (JStr "0x10"), (JStr "0x77359400"). repeat split; vm_compute; reflexivity. }
    pose proof (one_skipped_transaction_costs_one (Sample.oneBad 1000) initialCache
                  [Sample.transfer "0x01" (JStr "0xb0"); Sample.valueless "0x02";
                   Sample.creation "0x03"]
                  1%nat) as H.
    destruct H as (_ & _ & H).
    + vm_compute. lia.
    + vm_compute. reflexivity.
    + intros j Hj Hjk. change (List.length _) with 3%nat in Hj.
      destruct j as [| [| [| j]]]; [vm_compute; reflexivity | lia | vm_compute; reflexivity | lia].
    + destruct (H _ _ _ _ Hsteps) as (Hup & Hlen & _ & _ & _ & _ & _ & Htime).
      split; [exact Hlen | split; [exact Hup | exact Htime]].
Defined.

(** C4, as stated, fails: of the two lookups of this cycle exactly one
    fails, the other returns data that line 153 cannot normalize, and the
    cycle completes with none of the two transactions, not with one. *)
Lemma one_failed_lookup_two_skipped :
  sampledFrom (Sample.lostAndBad 1000) = Some [JStr "0x01"; JStr "0x02"]
  /\ map (fun j => fetchFails (Sample.lostAndBad 1000) j
                     (nth j [JStr "0x01"; JStr "0x02"] JUndefined)) [0; 1]%nat
     = [true; false]
  /\ updated (cycle (Sample.lostAndBad 1000) initialCache) = true
  /\ transactions (cachedData (cycle (Sample.lostAndBad 1000) initialCache)) = []
  /\ console (cycle (Sample.lostAndBad 1000) initialCache)
     = [UpdatedEthereumData (literal 16) 0;
        ErrorProcessingTransaction TypeError;
        ErrorProcessingTransaction FetchError].
Proof. repeat split; vm_compute; reflexivity. Qed.

(** The transactions of [details] come from increasing positions of the
    list. *)
Lemma details_picks (w : World) (txList : list JsVal) :
  forall i : nat,
  exists picks : list nat,
    StronglySorted lt picks
    /\ Forall (fun j => (i <= j < i + List.length txList)%nat) picks
    /\ map (fun j => detail w j (nth (j - i) txList JUndefined)) picks
       = map Some (details w i txList).
Proof.
  induction txList as [| tx rest IH]; intros i; cbn [details List.length].
  - exists []. repeat split; constructor.
  - destruct (IH (S i)) as (picks & Hsorted & Hrange & Hmap).
    assert (Hshift : map (fun j => detail w j (nth (j - i) (tx :: rest) JUndefined)) picks
                     = map (fun j => detail w j (nth (j - S i) rest JUndefined)) picks).
    { apply map_ext_in. intros j Hj. rewrite Forall_forall in Hrange.
      specialize (Hrange j Hj). replace (j - i)%nat with (S (j - S i)) by lia. reflexivity. }
    assert (Hrange' : Forall (fun j => (i <= j < i + S (List.length rest))%nat) picks).
    { eapply Forall_impl; [| exact Hrange]. cbv beta. intros j Hj. lia. }
    destruct (detail w i tx) as [t |] eqn:E.
    + exists (i :: picks). split; [| split].
      * constructor; [exact Hsorted |].
        eapply Forall_impl; [| exact Hrange]. cbv beta. intros j Hj. lia.
      * constructor; [lia | exact Hrange'].
      * cbn [map]. rewrite Hshift, Hmap, Nat.sub_diag. cbn [nth]. rewrite E. reflexivity.
    + exists picks. split; [exact Hsorted | split; [exact Hrange' |]].
      rewrite Hshift. exact Hmap.
Qed.

Lemma transactions_bounded (ws : list World) :
  forall c : Cache,
    (List.length (transactions c) <= 15)%nat ->
    (List.length (transactions (cycles ws c)) <= 15)%nat.
Proof.
  induction ws as [| w rest IH]; intros c H; [exact H |].
  rewrite cycles_step. apply IH. unfold refreshed.
  destruct (gather w) as [[u |] | e] eqn:E; try exact H.
  destruct (gather_reaches w u E) as (latest & fetched & ethBlock & items & price & _ & _ & Htx & _).
  unfold install; cbn [transactions]. rewrite Htx.
  pose proof (details_length_le w (firstn 15 items) 0).
  pose proof (firstn_le_length 15 items). lia.
Qed.

(** ** C5: the transaction list samples the head of the block *)

(** C5.  The cached transaction list never has more than 15 entries; and a
    cycle that completes over a block with the transaction array [items]
    stores the transactions that the loop obtained from the first
    [min (length items) 15] elements of [items], in the order of the block:
    they are the results of the iterations at strictly increasing
    positions [picks] below that bound. *)
Theorem transactions_sample_block_head (ws : list World) (w : World) (c : Cache) :
  (List.length (transactions (cycles ws initialCache)) <= 15)%nat
  /\ (updated (cycle w c) = true ->
      exists latest fetched ethBlock items price,
        reaches w latest fetched ethBlock items price
        /\ List.length (firstn 15 items) = Nat.min (List.length items) 15
        /\ transactions (cachedData (cycle w c)) = details w 0 (firstn 15 items)
        /\ (List.length (transactions (cachedData (cycle w c))) <= 15)%nat
        /\ exists picks : list nat,
             StronglySorted lt picks
             /\ Forall (fun j => (j < Nat.min (List.length items) 15)%nat) picks
             /\ map (fun j => detail w j (nth j items JUndefined)) picks
                = map Some (transactions (cachedData (cycle w c)))).
Proof.
  split; [apply transactions_bounded; cbn; lia |].
  rewrite updated_gather, cycle_cache. unfold refreshed.
  destruct (gather w) as [[u |] | e] eqn:E; try discriminate. intros _.
  destruct (gather_reaches w u E) as (latest & fetched & ethBlock & items & price & Hr & _ & Htx & _).
  exists latest, fetched, ethBlock, items, price.
  unfold install; cbn [transactions]. rewrite Htx.
  assert (Hlen : List.length (firstn 15 items) = Nat.min (List.length items) 15).
  { rewrite length_firstn. apply Nat.min_comm. }
  split; [exact Hr |]. split; [exact Hlen |]. split; [reflexivity |]. split.
  - pose proof (details_length_le w (firstn 15 items) 0).
    pose proof (firstn_le_length 15 items). lia.
  - destruct (details_picks w (firstn 15 items) 0) as (picks & Hsorted & Hrange & Hmap).
    exists picks. split; [exact Hsorted |]. split.
    + eapply Forall_impl; [| exact Hrange]. cbv beta. intros j Hj. lia.
    + rewrite <- Hmap. apply map_ext_in. intros j Hj.
      rewrite Forall_forall in Hrange. specialize (Hrange j Hj).
      rewrite Nat.sub_0_r, nth_firstn.
      destruct (Nat.ltb_spec j 15); [reflexivity | lia].
Qed.

Lemma transactions_sample_block_head_witness :
  (List.length (transactions (cycles [Sample.crowded 1000] initialCache)) <= 15)%nat
  /\ exists latest fetched ethBlock items price,
       reaches (Sample.crowded 1000) latest fetched ethBlock items price
       /\ List.length (firstn 15 items) = Nat.min (List.length items) 15
       /\ transactions (cachedData (cycle (Sample.crowded 1000) initialCache))
          = details (Sample.crowded 1000) 0 (firstn 15 items)
       /\ (List.length (transactions (cachedData (cycle (Sample.crowded 1000) initialCache)))
           <= 15)%nat
       /\ exists picks : list nat,
            StronglySorted lt picks
            /\ Forall (fun j => (j < Nat.min (List.length items) 15)%nat) picks
            /\ map (fun j => detail (Sample.crowded 1000) j (nth j items JUndefined)) picks
               = map Some (transactions (cachedData (cycle (Sample.crowded 1000) initialCache))).
Proof.
  split.
  - apply (proj1 (transactions_sample_block_head
                    [Sample.crowded 1000] (Sample.crowded 1000) initialCache)).
  - apply (proj2 (transactions_sample_block_head
                    [Sample.crowded 1000] (Sample.crowded 1000) initialCache)).
    vm_compute. reflexivity.
Defined.

(** A block of twenty transactions leaves fifteen in the cache. *)
Example crowded_block_keeps_fifteen :
  List.length (transactions (cachedData (cycle (Sample.crowded 1000) initialCache))) = 15%nat.
Proof. vm_compute. reflexivity. Qed.

(** ** C6: the recipient of a contract creation *)

Lemma toEthereumTransaction_to (txData : JsVal) (t : EthereumTransaction) :
  toEthereumTransaction txData = Normal t ->
  exists to : JsVal,
    Get txData "to" = Normal to /\ tx_to t = or_else to (JStr "Contract Creation").
Proof.
  unfold toEthereumTransaction. intros H.
  destruct (Get txData "hash"); cbn [andThen] in H; [| discriminate].
  destruct (Get txData "from"); cbn [andThen] in H; [| discriminate].
  destruct (Get txData "to") as [to |]; cbn [andThen] in H; [| discriminate].
  repeat match type of H with
         | andThen ?c _ = _ => destruct c; cbn [andThen] in H; [| discriminate]
         end.
  injection H as <-. exists to. split; reflexivity.
Qed.

(** [a || 'text'] is neither [null] nor [undefined]. *)
Lemma or_else_string (a : JsVal) (s : string) :
  or_else a (JStr s) <> JNull /\ or_else a (JStr s) <> JUndefined.
Proof.
  unfold or_else. destruct (truthy a) eqn:E; [| split; discriminate].
  destruct a; try discriminate; split; discriminate.
Qed.

Lemma detail_recipient (w : World) (i : nat) (tx : JsVal) (t : EthereumTransaction) :
  detail w i tx = Some t -> tx_to t <> JNull /\ tx_to t <> JUndefined.
Proof.
  unfold detail. intros H.
  destruct (dataOf w i tx) as [txData |]; [| discriminate].
  destruct (truthy txData); [| discriminate].
  destruct (toEthereumTransaction txData) as [t' |] eqn:E; [| discriminate].
  injection H as ->.
  destruct (toEthereumTransaction_to _ _ E) as (to & _ & ->). apply or_else_string.
Qed.

Lemma details_In (w : World) (txList : list JsVal) (t : EthereumTransaction) :
  forall i : nat,
    In t (details w i txList) -> exists j tx, detail w j tx = Some t.
Proof.
  induction txList as [| tx rest IH]; intros i H; cbn [details] in H; [contradiction |].
  destruct (detail w i tx) as [t' |] eqn:E.
  - destruct H as [-> | H]; [now exists i, tx | apply (IH _ H)].
  - apply (IH _ H).
Qed.

Lemma recipients_cycles (ws : list World) :
  forall c : Cache,
    Forall (fun t => tx_to t <> JNull /\ tx_to t <> JUndefined) (transactions c) ->
    Forall (fun t => tx_to t <> JNull /\ tx_to t <> JUndefined) (transactions (cycles ws c)).
Proof.
  induction ws as [| w rest IH]; intros c H; [exact H |].
  rewrite cycles_step. apply IH. unfold refreshed.
  destruct (gather w) as [[u |] | e] eqn:E; try exact H.
  destruct (gather_reaches w u E) as (latest & fetched & ethBlock & items & price & _ & _ & Htx & _).
  unfold install; cbn [transactions]. rewrite Htx. apply Forall_forall. intros t Ht.
  destruct (details_In _ _ _ _ Ht) as (j & tx & Hd). apply (detail_recipient _ _ _ _ Hd).
Qed.

(** C6.  Whatever the cycles, no cached transaction has a recipient of
    [null] or [undefined]; and when the data of a sampled transaction has
    no [to] member, or a [to] of [null], the transaction pushed for it
    has the recipient 'Contract Creation'. *)
Theorem absent_recipient_is_contract_creation
    (ws : list World) (w : World) (i : nat) (tx txData : JsVal) (t : EthereumTransaction) :
  (forall cached, In cached (transactions (cycles ws initialCache)) ->
                  tx_to cached <> JNull /\ tx_to cached <> JUndefined)
  /\ (dataOf w i tx = Normal txData ->
      detail w i tx = Some t ->
      (tx_to t <> JNull /\ tx_to t <> JUndefined)
      /\ (Get txData "to" = Normal JUndefined \/ Get txData "to" = Normal JNull ->
          tx_to t = JStr "Contract Creation")).
Proof.
  split.
  - apply Forall_forall. apply recipients_cycles. constructor.
  - intros Hdata Hdetail. split; [apply (detail_recipient _ _ _ _ Hdetail) |].
    unfold detail in Hdetail. rewrite Hdata in Hdetail.
    destruct (truthy txData); [| discriminate].
    destruct (toEthereumTransaction txData) as [t' |] eqn:E; [| discriminate].
    injection Hdetail as ->.
    destruct (toEthereumTransaction_to _ _ E) as (to & Hto & ->).
    intros [H | H]; rewrite Hto in H; injection H as ->; reflexivity.
Qed.

Lemma absent_recipient_is_contract_creation_witness :
  option_map tx_to (detail (Sample.oneLost 1000) 2 (Sample.creation "0x03"))
  = Some (JStr "Contract Creation").
Proof.
  destruct (detail (Sample.oneLost 1000) 2 (Sample.creation "0x03")) as [t |] eqn:E;
    [| vm_compute in E; discriminate].
  cbn [option_map]. f_equal.
  apply (proj2 (absent_recipient_is_contract_creation
                  [] (Sample.oneLost 1000) 2 (Sample.creation "0x03")
                  (Sample.creation "0x03") t) eq_refl E).
  left. vm_compute. reflexivity.
Defined.

(** ** C7: ether and gwei formatting *)

(** C7.  [formatEther] turns the wei value "0xde0b6b3a7640000" into
    "1.000000" and [formatGwei] turns "0x3b9aca00" into "1.00"; in general
    the one renders the number of wei divided by [1e18] with 6 fraction
    digits, the other the number of wei divided by [1e9] with 2. *)
Theorem format_one_ether_one_gwei :
  formatEther (JStr "0xde0b6b3a7640000") = Normal "1.000000"
  /\ formatGwei (JStr "0x3b9aca00") = Normal "1.00"
  /\ forall (weiHex : JsVal) (wei : Z),
       hexToBigInt weiHex = Normal wei ->
       formatEther weiHex
       = Normal (toFixed (div (NumberOfBigInt wei) (ofInteger false (10 ^ 18))) 6)
       /\ formatGwei weiHex
          = Normal (toFixed (div (NumberOfBigInt wei) (ofInteger false (10 ^ 9))) 2).
Proof.
  split; [vm_compute; reflexivity |]. split; [vm_compute; reflexivity |].
  intros weiHex wei H. unfold formatEther, formatGwei. rewrite H. split; reflexivity.
Qed.

Lemma format_one_ether_one_gwei_witness :
  formatEther (JStr " 1000000000000000000 ") = Normal "1.000000"
  /\ formatGwei (JStr " 1000000000000000000 ") = Normal "1000000000.00".
Proof.
  rewrite (proj1 (proj2 (proj2 format_one_ether_one_gwei) (JStr " 1000000000000000000 ")
                    (10 ^ 18) eq_refl)).
  rewrite (proj2 (proj2 (proj2 format_one_ether_one_gwei) (JStr " 1000000000000000000 ")
                    (10 ^ 18) eq_refl)).
  split; vm_compute; reflexivity.
Defined.

(** ** C8: the refresh gate of the snapshot route *)

Lemma snapshot_stale (w : World) (p : Proc) :
  30000 < now w Arrival - lastUpdate (cachedData p) ->
  snapshotRoute w p
  = (Normal (SnapshotJson (cachedData (snd (fetchLatestBlockData w p)))),
     snd (fetchLatestBlockData w p)).
Proof.
  intros H. unfold snapshotRoute.
  cbv beta iota zeta delta [bind ret readCache DateNow].
  apply Z.ltb_lt in H. rewrite H.
  destruct (cycle_split w p) as (p' & E & _). rewrite E. reflexivity.
Qed.

Lemma snapshot_fresh (w : World) (p : Proc) :
  now w Arrival - lastUpdate (cachedData p) <= 30000 ->
  snapshotRoute w p = (Normal (SnapshotJson (cachedData p)), p).
Proof.
  intros H. unfold snapshotRoute.
  cbv beta iota zeta delta [bind ret readCache DateNow].
  apply Z.ltb_ge in H. rewrite H. reflexivity.
Qed.

(** A cycle posts at least the request for the block number. *)
Lemma cycle_posts (w : World) (c : Cache) : sent (cycle w c) <> [].
Proof.
  unfold cycle. destruct (cycle_split w (holding c)) as (p' & E & _ & _ & l & Hl).
  rewrite E. cbn [snd]. rewrite Hl. destruct l; discriminate.
Qed.

Lemma updated_lastUpdate (w : World) (c : Cache) :
  updated (cycle w c) = true -> lastUpdate (cachedData (cycle w c)) = now w Commit.
Proof.
  rewrite updated_gather, cycle_cache. unfold refreshed.
  destruct (gather w) as [[u |] | e] eqn:E; try discriminate. intros _.
  destruct (gather_reaches w u E) as (latest & fetched & ethBlock & items & price & _ & _ & _ & Ht).
  exact Ht.
Qed.

(** C8, as the code has it.  The snapshot route runs a refresh cycle
    before it answers if and only if [Date.now() - lastUpdate] exceeds
    30000 at the request, and then answers with the cache as the cycle
    left it: with a newer [lastUpdate] if the cycle completed (the clock
    not running backwards), with the unchanged cache if it failed.  A
    request that finds the cache at most 30000 ms old posts nothing and
    answers with the cache as it is, so two such requests in a row post
    nothing. *)
Theorem snapshot_refreshes_when_stale (w w2 : World) (c : Cache) :
  (30000 < now w Arrival - lastUpdate c <->
   sent (snd (snapshotRoute w (holding c))) <> [])
  /\ (30000 < now w Arrival - lastUpdate c ->
      snapshotRoute w (holding c)
      = (Normal (SnapshotJson (cachedData (cycle w c))), cycle w c))
  /\ (30000 < now w Arrival - lastUpdate c ->
      updated (cycle w c) = true ->
      now w Arrival <= now w Commit ->
      servedLastUpdate (fst (snapshotRoute w (holding c))) = Some (now w Commit)
      /\ lastUpdate c < now w Commit)
  /\ (30000 < now w Arrival - lastUpdate c ->
      failed (cycle w c) = true ->
      servedLastUpdate (fst (snapshotRoute w (holding c))) = Some (lastUpdate c))
  /\ (now w Arrival - lastUpdate c <= 30000 ->
      snapshotRoute w (holding c) = (Normal (SnapshotJson c), holding c))
  /\ (now w Arrival - lastUpdate c <= 30000 ->
      now w2 Arrival - lastUpdate c <= 30000 ->
      twoRequests snapshotRoute w snapshotRoute w2 (holding c) = holding c).
Proof.
  split; [| split; [| split; [| split; [| split]]]].
  - split.
    + intros H. rewrite (snapshot_stale w (holding c) H). apply cycle_posts.
    + intros H. destruct (Z.lt_ge_cases 30000 (now w Arrival - lastUpdate c)) as [Hlt | Hge];
        [exact Hlt |].
      rewrite (snapshot_fresh w (holding c)) in H by (cbn; lia). now contradiction H.
  - intros H. rewrite (snapshot_stale w (holding c) H). reflexivity.
  - intros H Hup Hclock. rewrite (snapshot_stale w (holding c) H).
    cbn [fst servedLastUpdate]. change (snd (fetchLatestBlockData w (holding c))) with (cycle w c).
    rewrite (updated_lastUpdate w c Hup). split; [reflexivity | lia].
  - intros H Hfail. rewrite (snapshot_stale w (holding c) H).
    cbn [fst servedLastUpdate]. change (snd (fetchLatestBlockData w (holding c))) with (cycle w c).
    rewrite (failed_cache w c Hfail). reflexivity.
  - intros H. apply (snapshot_fresh w (holding c) H).
  - intros H H2. unfold twoRequests.
    rewrite (snapshot_fresh w (holding c) H). cbn [snd].
    rewrite (snapshot_fresh w2 (holding c) H2). reflexivity.
Qed.

Lemma snapshot_refreshes_when_stale_witness :
  (sent (snd (snapshotRoute (Sample.atBlock "0x10" 45000) (holding initialCache))) <> []
   /\ servedLastUpdate (fst (snapshotRoute (Sample.atBlock "0x10" 45000) (holding initialCache)))
      = Some 45000
   /\ lastUpdate initialCache < 45000)
  /\ twoRequests snapshotRoute (Sample.atBlock "0x11" 50000)
                 snapshotRoute (Sample.atBlock "0x12" 75000)
                 (holding (cycles [Sample.atBlock "0x10" 45000] initialCache))
     = holding (cycles [Sample.atBlock "0x10" 45000] initialCache).
Proof.
  pose proof (snapshot_refreshes_when_stale
                (Sample.atBlock "0x10" 45000) (Sample.atBlock "0x10" 45000) initialCache)
    as (Hiff & _ & Hnewer & _).
  pose proof (snapshot_refreshes_when_stale
                (Sample.atBlock "0x11" 50000) (Sample.atBlock "0x12" 75000)
                (cycles [Sample.atBlock "0x10" 45000] initialCache))
    as (_ & _ & _ & _ & _ & Htwo).
  split; [split |].
  - apply (proj1 Hiff). vm_compute. reflexivity.
  - apply Hnewer; vm_compute; [reflexivity | reflexivity | discriminate].
  - apply Htwo; vm_compute; discriminate.
Defined.

(** C8, as stated, fails: with the endpoint unreachable and the cache 45
    seconds old, the route runs a cycle (it posts the block-number request)
    and still answers with the [lastUpdate] it found. *)
Lemma stale_snapshot_keeps_lastUpdate_when_refresh_fails :
  now (Sample.down 45000) Arrival - lastUpdate initialCache = 45000
  /\ sent (snd (snapshotRoute (Sample.down 45000) (holding initialCache)))
     = [{| method := "eth_blockNumber"; params := [] |}]
  /\ servedLastUpdate (fst (snapshotRoute (Sample.down 45000) (holding initialCache)))
     = Some (lastUpdate initialCache).
Proof. repeat split; vm_compute; reflexivity. Qed.

(** ** C9 and C10: the health and mempool routes *)

(** C9.  The health route answers with the status, [lastUpdate] and the
    block number of [networkInfo], the mempool route with [mempoolStats]
    alone; both leave the process exactly as it was: the cache unchanged,
    nothing posted to the endpoint, nothing logged - no refresh cycle. *)
Theorem health_and_mempool_only_read (w : World) (p : Proc) :
  healthRoute w p
  = (Normal (HealthJson "ok" (lastUpdate (cachedData p))
                        (net_blockNumber (networkInfo (cachedData p)))), p)
  /\ mempoolRoute w p = (Normal (MempoolJson (mempoolStats (cachedData p))), p).
Proof. split; reflexivity. Qed.

(** C10.  The status of the health route is 'ok' in every state of the
    process and of the world: before any cycle has completed (then with a
    [lastUpdate] of 0 and block number 0), and however old the cache is. *)
Theorem health_status_is_ok (w : World) (p : Proc) :
  servedStatus (fst (healthRoute w p)) = Some "ok"
  /\ fst (healthRoute w (holding initialCache)) = Normal (HealthJson "ok" 0 zero).
Proof. split; reflexivity. Qed.

(** Even after a failed refresh of a cache that was never filled. *)
Example health_ok_while_endpoint_down :
  fst (healthRoute (Sample.down 99000000)
         (snd (snapshotRoute (Sample.down 99000000) (holding initialCache))))
  = Normal (HealthJson "ok" 0 zero).
Proof. vm_compute. reflexivity. Qed.

(** * Further properties of the module *)

(** ** The state a cycle leaves *)

(** What the loop over the sampled transactions logs and posts. *)
Lemma forEachTx_trace (w : World) (txList : list JsVal) :
  forall (i : nat) (acc : list EthereumTransaction) (p : Proc),
    snd (forEachTx i txList acc w p)
    = {| cachedData := cachedData p;
         console := (rev (map ErrorProcessingTransaction (txErrors w i txList)) ++ console p)%list;
         sent := (rev (map lookupRequest (filter isString txList)) ++ sent p)%list |}.
Proof.
  induction txList as [| tx rest IH]; intros i acc p; cbn [forEachTx txErrors filter].
  - destruct p; reflexivity.
  - js_unfold. unfold txError, dataOf, lookupRequest in *.
    destruct (isString tx); cbv beta iota.
    + destruct (answer w (AtTransaction i) _) as [txData | e]; cbv beta iota.
      * destruct (truthy txData); cbv beta iota.
        -- destruct (toEthereumTransaction txData) as [t | e]; cbv beta iota;
             rewrite IH; cbn [cachedData console sent map rev];
             rewrite <- ?app_assoc; reflexivity.
        -- rewrite IH; cbn [cachedData console sent map rev];
             rewrite <- ?app_assoc; reflexivity.
      * rewrite IH; cbn [cachedData console sent map rev];
          rewrite <- ?app_assoc; reflexivity.
    + destruct (truthy tx); cbv beta iota.
      * destruct (toEthereumTransaction tx) as [t | e]; cbv beta iota;
          rewrite IH; cbn [cachedData console sent map rev];
          rewrite <- ?app_assoc; reflexivity.
      * rewrite IH; reflexivity.
Qed.

(** The whole state after a cycle: the cache, the console and the requests
    posted. *)
Lemma cycle_trace (w : World) (p : Proc) :
  snd (fetchLatestBlockData w p)
  = {| cachedData := refreshed w (cachedData p);
       console := (lastLine w :: txLines w ++ console p)%list;
       sent := (rev (posted w) ++ sent p)%list |}.
Proof.
  unfold fetchLatestBlockData, refreshed, lastLine, txLines, posted, sampledFrom, gather,
    blockNumberRequest, blockRequest, gasPriceRequest.
  js_unfold.
  destruct (answer w AtBlockNumber _) as [hex | e]; cbn [andThen]; cbv beta iota;
    [| reflexivity].
  destruct (hexToDecimal hex) as [latest | e]; cbn [andThen]; cbv beta iota; [| reflexivity].
  destruct (answer w AtBlock _) as [fetched | e]; cbn [andThen]; cbv beta iota; [| reflexivity].
  destruct (truthy fetched); cbn [negb]; cbv beta iota; [| reflexivity].
  destruct (toEthereumBlock fetched) as [ethBlock | e] eqn:Eb; cbn [andThen]; cbv beta iota;
    [| reflexivity].
  destruct (let? v := Get fetched "transactions" in asArray v) as [items | e];
    cbn [andThen]; cbv beta iota; [| reflexivity].
  cbn [cachedData console sent].
  match goal with |- context [forEachTx 0 (firstn 15 items) [] w ?q] =>
    destruct (forEachTx_spec w (firstn 15 items) 0 [] q) as (p2 & E & _);
    pose proof (forEachTx_trace w (firstn 15 items) 0 [] q) as T end.
  rewrite E in T. cbn [snd cachedData console sent] in T. rewrite E. cbn [app]. cbv beta iota.
  subst p2. cbn [cachedData console sent].
  assert (Hsent : forall (g : list Rpc) (l : list Rpc) (h : JsVal) (tl : list Rpc),
            (g ++ rev l ++ {| method := "eth_getBlockByNumber"; params := [h; JBool true] |}
               :: {| method := "eth_blockNumber"; params := [] |} :: tl)%list
            = (rev ({| method := "eth_blockNumber"; params := [] |}
                    :: {| method := "eth_getBlockByNumber"; params := [h; JBool true] |}
                    :: l ++ rev g) ++ tl)%list).
  { intros g l h tl. cbn [rev]. rewrite rev_app_distr, rev_involutive, <- !app_assoc.
    reflexivity. }
  destruct (answer w AtGasPrice _) as [gasPriceHex | e]; cbn [andThen]; cbv beta iota.
  2: { cbn [snd cachedData console sent]. f_equal. apply (Hsent [gasPriceRequest]). }
  destruct (formatGwei gasPriceHex) as [currentGasPrice | e]; cbn [andThen]; cbv beta iota.
  2: { cbn [snd cachedData console sent]. f_equal. apply (Hsent [gasPriceRequest]). }
  cbn [cachedData console sent].
  rewrite (toEthereumBlock_timestamp _ _ Eb). cbv beta iota.
  unfold install, pushFront.
  cbn [cachedData console sent blockHistory gasPriceHistory setBlockHistory setGasPriceHistory
       u_block u_transactions u_networkInfo u_gasPoint u_mempoolStats u_time].
  destruct (20 <? _)%nat; cbv beta iota;
    cbn [cachedData console sent blockHistory gasPriceHistory setBlockHistory setGasPriceHistory];
    (destruct (50 <? _)%nat; cbv beta iota; cbn [snd cachedData console sent];
     f_equal; apply (Hsent [gasPriceRequest])).
Qed.

Lemma cycle_state (w : World) (c : Cache) :
  cycle w c = {| cachedData := refreshed w c;
                 console := lastLine w :: txLines w;
                 sent := rev (posted w) |}.
Proof.
  unfold cycle. rewrite cycle_trace. cbn [holding cachedData console sent].
  rewrite !app_nil_r. reflexivity.
Qed.

Lemma lookups_bounded (items : list JsVal) :
  (List.length (map lookupRequest (filter isString (firstn 15 items))) <= 15)%nat.
Proof.
  rewrite length_map.
  pose proof (filter_length_le isString (firstn 15 items)).
  pose proof (firstn_le_length 15 items). lia.
Qed.

(** ** X1: the requests of one cycle *)

(** X1.  A refresh cycle posts at most 18 requests, in this order: first
    eth_blockNumber, then at most one eth_getBlockByNumber, then at most 15
    eth_getTransactionByHash, then at most one eth_gasPrice. *)
Theorem cycle_request_budget (w : World) (c : Cache) :
  exists blockLookup txLookups gasLookup : list Rpc,
    rev (sent (cycle w c)) = (blockNumberRequest :: blockLookup ++ txLookups ++ gasLookup)%list
    /\ (List.length blockLookup <= 1)%nat
    /\ (List.length txLookups <= 15)%nat
    /\ (List.length gasLookup <= 1)%nat
    /\ Forall (fun r => method r = "eth_getBlockByNumber") blockLookup
    /\ Forall (fun r => method r = "eth_getTransactionByHash") txLookups
    /\ Forall (fun r => method r = "eth_gasPrice") gasLookup
    /\ (List.length (sent (cycle w c)) <= 18)%nat.
Proof.
  rewrite cycle_state. cbn [sent]. rewrite rev_involutive, length_rev. unfold posted.
  assert (Hnone : exists blockLookup txLookups gasLookup : list Rpc,
            [blockNumberRequest] = (blockNumberRequest :: blockLookup ++ txLookups ++ gasLookup)%list
            /\ (List.length blockLookup <= 1)%nat
            /\ (List.length txLookups <= 15)%nat
            /\ (List.length gasLookup <= 1)%nat
            /\ Forall (fun r => method r = "eth_getBlockByNumber") blockLookup
            /\ Forall (fun r => method r = "eth_getTransactionByHash") txLookups
            /\ Forall (fun r => method r = "eth_gasPrice") gasLookup
            /\ (List.length [blockNumberRequest] <= 18)%nat).
  { exists [], [], []. cbn. repeat split; try lia; repeat constructor. }
  destruct (answer w AtBlockNumber blockNumberRequest) as [hex | e]; [| exact Hnone].
  destruct (hexToDecimal hex) as [latest | e]; [| exact Hnone].
  destruct (sampledFrom w) as [items |].
  - exists [blockRequest hex], (map lookupRequest (filter isString (firstn 15 items))),
      [gasPriceRequest].
    pose proof (lookups_bounded items) as Hb.
    split; [reflexivity |]. split; [cbn; lia |]. split; [exact Hb |]. split; [cbn; lia |].
    split; [repeat constructor |]. split.
    + apply Forall_forall. intros r Hr. apply in_map_iff in Hr as (tx & <- & _). reflexivity.
    + split; [repeat constructor |].
      cbn [List.length]. rewrite length_app. cbn [List.length]. lia.
  - exists [blockRequest hex], [], []. cbn. repeat split; try lia; repeat constructor.
Qed.

(** ** X2: what a cycle looks up *)

(** X2.  A cycle that gets to sample the transaction array [items] asks
    for the block by the very value that eth_blockNumber returned, with
    full transactions; it then looks up exactly the elements among the
    first 15 of [items] that are strings (hashes), one request each, in
    the order of the block, and asks for the gas price once, last.  When
    none of those elements is a string - the transactions came embedded -
    the cycle costs three requests. *)
Theorem cycle_looks_up_hashes_only (w : World) (c : Cache) (items : list JsVal)
    (Hitems : sampledFrom w = Some items) :
  exists hex : JsVal,
    answer w AtBlockNumber blockNumberRequest = Normal hex
    /\ rev (sent (cycle w c))
       = (blockNumberRequest :: blockRequest hex
          :: map lookupRequest (filter isString (firstn 15 items)) ++ [gasPriceRequest])%list
    /\ (filter isString (firstn 15 items) = [] -> List.length (sent (cycle w c)) = 3%nat).
Proof.
  rewrite cycle_state. cbn [sent]. rewrite rev_involutive, length_rev. unfold posted.
  rewrite Hitems. unfold sampledFrom in Hitems.
  destruct (answer w AtBlockNumber blockNumberRequest) as [hex | e]; [| discriminate].
  destruct (hexToDecimal hex) as [latest | e]; [| discriminate].
  exists hex. split; [reflexivity |]. split; [reflexivity |].
  intros ->. reflexivity.
Qed.

Lemma cycle_looks_up_hashes_only_witness :
  map method (rev (sent (cycle (Sample.oneLost 1000) initialCache)))
  = ["eth_blockNumber"; "eth_getBlockByNumber"; "eth_getTransactionByHash"; "eth_gasPrice"]
  /\ List.length (sent (cycle (Sample.crowded 1000) initialCache)) = 3%nat.
Proof.
  split.
  - destruct (cycle_looks_up_hashes_only (Sample.oneLost 1000) initialCache
                [Sample.transfer "0x01" (JStr "0xb0"); JStr "0x02"; Sample.creation "0x03"])
      as (hex & _ & -> & _).
    + vm_compute. reflexivity.
    + reflexivity.
  - destruct (cycle_looks_up_hashes_only (Sample.crowded 1000) initialCache
                (repeat (Sample.transfer "0x01" (JStr "0xb0")) 20))
      as (hex & _ & _ & H).
    + vm_compute. reflexivity.
    + apply H. vm_compute. reflexivity.
Defined.

(** ** X3: a block without a transaction array *)

(** Induction on values, through the elements of arrays. *)
Lemma JsVal_deep_ind (P : JsVal -> Prop)
    (Hundefined : P JUndefined) (Hnull : P JNull)
    (Hbool : forall b, P (JBool b)) (Hnum : forall x, P (JNum x))
    (Hstr : forall s, P (JStr s))
    (Harr : forall items, Forall P items -> P (JArr items))
    (Hobj : forall props, P (JObj props)) :
  forall v : JsVal, P v.
Proof.
  fix IH 1. intros [| | b | x | s | items | props].
  - exact Hundefined.
  - exact Hnull.
  - apply Hbool.
  - apply Hnum.
  - apply Hstr.
  - apply Harr. induction items as [| item rest IHrest].
    + constructor.
    + constructor; [apply IH | exact IHrest].
  - apply Hobj.
Qed.

(** The only error of a conversion to a string is a TypeError. *)
Lemma ToString_throws (v : JsVal) (e : JsError) : ToString v = Throw e -> e = TypeError.
Proof.
  revert e. induction v as [| | b | x | s | items IH | props] using JsVal_deep_ind;
    intros e H; cbn [ToString] in H; try discriminate.
  - revert e H. induction IH as [| item rest Hitem _ IHrest]; intros e H; [discriminate |].
    assert (Hhead : forall e',
              match item with
              | JUndefined | JNull => Normal ""
              | _ => ToString item
              end = Throw e' -> e' = TypeError).
    { intros e' He'. destruct item; try discriminate; apply Hitem; exact He'. }
    destruct (match item with
              | JUndefined | JNull => Normal ""
              | _ => ToString item
              end) as [text | e'] eqn:E; cbn [andThen] in H.
    + destruct rest as [| item' rest']; [discriminate |].
      match type of H with
      | andThen ?c _ = _ => destruct c as [r | e''] eqn:Er; cbn [andThen] in H
      end; [discriminate |].
      injection H as <-. apply IHrest. reflexivity.
    + injection H as <-. apply Hhead. reflexivity.
  - destruct (hasOwn "toString" props); [| discriminate]. injection H as <-. reflexivity.
Qed.

Lemma hexToDecimal_throws (v : JsVal) (e : JsError) :
  hexToDecimal v = Throw e -> e = TypeError.
Proof.
  unfold hexToDecimal, parseInt. intros H.
  destruct (ToString v) as [text | e'] eqn:E; cbn [andThen] in H.
  - destruct (readSign (skipWhite text)) as [neg s].
    destruct (readDigits 16 _ 0 0) as [[mathInt n] rest].
    destruct n; discriminate.
  - injection H as <-. apply (ToString_throws v). exact E.
Qed.

Lemma Get_truthy (v : JsVal) (name : string) :
  truthy v = true -> exists x, Get v name = Normal x.
Proof. destruct v; try discriminate; intros _; eexists; reflexivity. Qed.

Lemma toEthereumBlock_needs_array (fetched : JsVal) :
  truthy fetched = true ->
  (forall items, Get fetched "transactions" <> Normal (JArr items)) ->
  toEthereumBlock fetched = Throw TypeError.
Proof.
  intros Ht Hno. unfold toEthereumBlock.
  destruct (Get_truthy fetched "number" Ht) as [n ->].
  destruct (Get_truthy fetched "hash" Ht) as [h ->].
  destruct (Get_truthy fetched "timestamp" Ht) as [t ->].
  destruct (Get_truthy fetched "transactions" Ht) as [txs Htxs]. rewrite Htxs.
  cbn [andThen].
  destruct (hexToDecimal n) as [number | e] eqn:En; cbn [andThen];
    [| now rewrite (hexToDecimal_throws _ _ En)].
  destruct (hexToDecimal t) as [timestamp | e] eqn:Et; cbn [andThen];
    [| now rewrite (hexToDecimal_throws _ _ Et)].
  destruct txs; try reflexivity. contradiction (Hno items).
Qed.

(** X3.  When the block that comes back is truthy but has no array under
    [transactions], the cycle is abandoned with a TypeError: it logs
    'Error fetching Ethereum data:' and nothing else, has posted the
    block-number and the block request and no other, and leaves the cache
    as it was. *)
Theorem block_without_transactions_fails_fast
    (w : World) (c : Cache) (hex fetched : JsVal) (latest : Number)
    (Hhex : answer w AtBlockNumber blockNumberRequest = Normal hex)
    (Hlatest : hexToDecimal hex = Normal latest)
    (Hblock : answer w AtBlock (blockRequest hex) = Normal fetched)
    (Htruthy : truthy fetched = true)
    (Hmalformed : forall items, Get fetched "transactions" <> Normal (JArr items)) :
  cycle w c = {| cachedData := c;
                 console := [ErrorFetchingEthereumData TypeError];
                 sent := [blockRequest hex; blockNumberRequest] |}.
Proof.
  rewrite cycle_state.
  unfold refreshed, lastLine, txLines, posted, sampledFrom, gather.
  fold blockNumberRequest. rewrite Hhex; cbn [andThen]. rewrite Hlatest; cbn [andThen].
  fold (blockRequest hex). rewrite Hblock; cbn [andThen]. rewrite Htruthy; cbn [negb].
  rewrite (toEthereumBlock_needs_array fetched Htruthy Hmalformed). reflexivity.
Qed.

Lemma block_without_transactions_fails_fast_witness :
  cycle {| reply := fun site _ =>
                match site with
                | AtBlockNumber => Sample.envelope (JStr "0x10")
                | _ => Sample.envelope (JObj [("number", JStr "0x10")])
                end;
              random := fun _ => zero;
              now := fun _ => 1000 |} initialCache
  = {| cachedData := initialCache;
          console := [ErrorFetchingEthereumData TypeError];
          sent := [blockRequest (JStr "0x10"); blockNumberRequest] |}.
Proof.
  apply (block_without_transactions_fails_fast _ initialCache (JStr "0x10")
           (JObj [("number", JStr "0x10")]) (literal 16)).
  - vm_compute. reflexivity.
  - vm_compute. reflexivity.
  - vm_compute. reflexivity.
  - reflexivity.
  - intros items. vm_compute. discriminate.
Defined.

(** ** Invariants of the cache over any run *)

Lemma completed_step (w : World) (rest : list World) (c : Cache) :
  completed (w :: rest) c
  = ((match gather w with
      | Normal (Some _) => 1
      | _ => 0
      end) + completed rest (refreshed w c))%nat.
Proof.
  cbn [completed]. rewrite updated_gather, cycle_cache.
  destruct (gather w) as [[u |] | e]; reflexivity.
Qed.

Lemma none_completed (ws : list World) :
  forall c : Cache, completed ws c = 0%nat -> cycles ws c = c.
Proof.
  induction ws as [| w rest IH]; intros c H; [reflexivity |].
  rewrite completed_step in H. rewrite cycles_step. unfold refreshed in *.
  destruct (gather w) as [[u |] | e]; try apply IH; try exact H. discriminate.
Qed.

Lemma block_stays (ws : list World) :
  forall c : Cache, block c <> None -> block (cycles ws c) <> None.
Proof.
  induction ws as [| w rest IH]; intros c H; [exact H |].
  rewrite cycles_step. apply IH. unfold refreshed.
  destruct (gather w) as [[u |] | e]; try exact H. discriminate.
Qed.

Lemma some_completed (ws : list World) :
  forall c : Cache, (0 < completed ws c)%nat -> block (cycles ws c) <> None.
Proof.
  induction ws as [| w rest IH]; intros c H; [cbn in H; lia |].
  rewrite completed_step in H. rewrite cycles_step. unfold refreshed in *.
  destruct (gather w) as [[u |] | e]; try (apply IH; exact H).
  apply block_stays. discriminate.
Qed.

(** X4.  Until a first cycle completes the cache is the initial one, field
    by field, however many cycles have failed; and the current block is
    [null] exactly as long as no cycle has completed. *)
Theorem cache_initial_until_first_update (ws : list World) :
  (block (cycles ws initialCache) = None <-> completed ws initialCache = 0%nat)
  /\ (completed ws initialCache = 0%nat -> cycles ws initialCache = initialCache).
Proof.
  split; [split |].
  - intros H. destruct (completed ws initialCache) eqn:E; [reflexivity |].
    exfalso. apply (some_completed ws initialCache); [lia | exact H].
  - intros H. rewrite (none_completed ws initialCache H). reflexivity.
  - apply none_completed.
Qed.

Lemma cache_initial_until_first_update_witness :
  cycles [Sample.down 1000; Sample.blockless 16000; Sample.down 31000] initialCache
  = initialCache.
Proof.
  apply (proj2 (cache_initial_until_first_update
                  [Sample.down 1000; Sample.blockless 16000; Sample.down 31000])).
  vm_compute. reflexivity.
Defined.

Lemma history_length {A : Type} (item : Update -> A) (history : Cache -> list A) (n : nat) :
  (forall u c, history (install u c) = pushFront n (item u) (history c)) ->
  forall (ws : list World) (c : Cache),
    (List.length (history c) <= n)%nat ->
    List.length (history (cycles ws c))
    = Nat.min n (List.length (history c) + completed ws c).
Proof.
  intros Hpush ws. induction ws as [| w rest IH]; intros c Hlen.
  - cbn [cycles completed]. lia.
  - rewrite cycles_step, completed_step. unfold refreshed.
    destruct (gather w) as [[u |] | e]; try (rewrite (IH c Hlen); reflexivity).
    rewrite IH; rewrite Hpush, pushFront_firstn, length_firstn; cbn [List.length]; lia.
Qed.

(** X5.  Each completed cycle adds one entry to both histories until they
    are full: after any run the block history has [min 20 k] entries and
    the gas-price history [min 50 k], [k] being the number of cycles that
    completed; failed cycles add nothing. *)
Theorem histories_count_completed_cycles (ws : list World) :
  List.length (blockHistory (cycles ws initialCache))
  = Nat.min 20 (completed ws initialCache)
  /\ List.length (gasPriceHistory (cycles ws initialCache))
     = Nat.min 50 (completed ws initialCache).
Proof.
  split.
  - apply (history_length u_block blockHistory 20 (fun _ _ => eq_refl) ws initialCache).
    cbn. lia.
  - apply (history_length u_gasPoint gasPriceHistory 50 (fun _ _ => eq_refl) ws initialCache).
    cbn. lia.
Qed.

Lemma gather_timestamp (w : World) (u : Update) :
  gather w = Normal (Some u) -> gpp_timestamp (u_gasPoint u) = blk_timestamp (u_block u).
Proof.
  unfold gather. intros H.
  repeat match type of H with
         | andThen ?c _ = _ => destruct c; cbn [andThen] in H; [| discriminate]
         | (if ?b then _ else _) = _ => destruct b; [discriminate |]
         end.
  injection H as <-. reflexivity.
Qed.

Lemma pushes_timestamps (ws : list World) :
  forall (blocks : list EthereumBlock) (points : list GasPricePoint),
    map blk_timestamp blocks = map gpp_timestamp points ->
    map blk_timestamp (pushes u_block ws blocks)
    = map gpp_timestamp (pushes u_gasPoint ws points).
Proof.
  induction ws as [| w rest IH]; intros blocks points H; cbn [pushes]; [exact H |].
  destruct (gather w) as [[u |] | e] eqn:E; try (apply IH; exact H).
  apply IH. cbn [map]. rewrite H, (gather_timestamp w u E). reflexivity.
Qed.

(** X6.  The two histories run in step: the timestamps of the block
    history are those of the first 20 gas-price samples, entry by entry. *)
Theorem histories_share_timestamps (ws : list World) :
  map blk_timestamp (blockHistory (cycles ws initialCache))
  = firstn 20 (map gpp_timestamp (gasPriceHistory (cycles ws initialCache))).
Proof.
  rewrite blockHistory_pushed, gasPriceHistory_pushed.
  rewrite (pushedOn_pushes u_block blockHistory 19 (fun _ _ => eq_refl)).
  rewrite (pushedOn_pushes u_gasPoint gasPriceHistory 49 (fun _ _ => eq_refl)).
  rewrite <- !firstn_map, firstn_firstn. cbn [Nat.min].
  rewrite (pushes_timestamps ws [] []); reflexivity.
Qed.

Lemma mapArray_length {A B : Type} (f : A -> Completion B) (items : list A) :
  forall ys, mapArray f items = Normal ys -> List.length ys = List.length items.
Proof.
  induction items as [| x rest IH]; intros ys H; cbn [mapArray] in H.
  - injection H as <-. reflexivity.
  - destruct (f x); cbn [andThen] in H; [| discriminate].
    destruct (mapArray f rest) as [ys' |]; cbn [andThen] in H; [| discriminate].
    injection H as <-. cbn [List.length]. f_equal. apply IH. reflexivity.
Qed.

Lemma toEthereumBlock_counts (fetched : JsVal) (b : EthereumBlock) (items : list JsVal) :
  toEthereumBlock fetched = Normal b ->
  (let? v := Get fetched "transactions" in asArray v) = Normal items ->
  blk_txCount b = List.length items /\ List.length (blk_transactions b) = List.length items.
Proof.
  unfold toEthereumBlock. intros H Hitems.
  destruct (let? v := Get fetched "number" in hexToDecimal v); cbn [andThen] in H; [| discriminate].
  destruct (Get fetched "hash"); cbn [andThen] in H; [| discriminate].
  destruct (let? v := Get fetched "timestamp" in hexToDecimal v);
    cbn [andThen] in H; [| discriminate].
  rewrite Hitems in H. cbn [andThen] in H.
  destruct (mapArray _ items) as [hashes |] eqn:Eh; cbn [andThen] in H; [| discriminate].
  repeat match type of H with
         | andThen ?c _ = _ => destruct c; cbn [andThen] in H; [| discriminate]
         end.
  injection H as <-. cbn [blk_txCount blk_transactions].
  split; [reflexivity | apply (mapArray_length _ _ _ Eh)].
Qed.

Lemma install_coherent (w : World) (u : Update) (c : Cache) :
  gather w = Normal (Some u) -> coherent (install u c).
Proof.
  intros E.
  destruct (gather_reaches w u E) as (latest & fetched & ethBlock & items & price & Hr & Hb' & Ht & _).
  pose proof (reaches_gather _ _ _ _ _ _ Hr) as E'. rewrite E in E'.
  injection E' as Eu. apply (f_equal u_networkInfo) in Eu as Hn.
  apply (f_equal u_mempoolStats) in Eu as Hm. cbn [u_networkInfo u_mempoolStats] in Hn, Hm.
  destruct Hr as (hex & gasPriceHex & _ & _ & _ & _ & Hb & Hi & _).
  destruct (toEthereumBlock_counts _ _ _ Hb Hi) as [Hcount Hlen].
  unfold coherent, install. cbn [mempoolStats networkInfo block transactions].
  rewrite Hn, Hm, Hb', Ht, Hcount, Hlen.
  cbn [avgGasPrice net_gasPrice net_txCount].
  split; [reflexivity |]. split; [reflexivity |]. split; [reflexivity |].
  pose proof (details_length_le w (firstn 15 items) 0) as H.
  rewrite length_firstn in H. lia.
Qed.

Lemma coherent_cycles (ws : list World) :
  forall c : Cache, coherent c -> coherent (cycles ws c).
Proof.
  induction ws as [| w rest IH]; intros c H; [exact H |].
  rewrite cycles_step. apply IH. unfold refreshed.
  destruct (gather w) as [[u |] | e] eqn:E; try exact H.
  apply (install_coherent w u c E).
Qed.

(** X7.  After any run the snapshot is coherent: [mempoolStats.avgGasPrice]
    is [networkInfo.gasPrice]; [networkInfo.txCount] is the [txCount] of the
    current block, which lists exactly that many transaction hashes; and
    the transaction list has no more entries than the block has
    transactions (nor than 15). *)
Theorem snapshot_is_coherent (ws : list World) : coherent (cycles ws initialCache).
Proof.
  apply coherent_cycles. split; reflexivity.
Qed.

(** ** What a stored block and a stored transaction hold *)

Lemma Forall_firstn_of {A : Type} (P : A -> Prop) (n : nat) :
  forall l : list A, Forall P l -> Forall P (firstn n l).
Proof.
  induction n as [| n IH]; intros l H; [constructor |].
  destruct H as [| x l Hx Hl]; constructor; [exact Hx | apply IH; exact Hl].
Qed.

Lemma toEthereumBlock_fields (fetched : JsVal) (b : EthereumBlock) :
  toEthereumBlock fetched = Normal b ->
  exists (number h : JsVal) (items hashes : list JsVal) (m d : JsVal) (difficulty : Number),
    Get fetched "number" = Normal number
    /\ Get fetched "hash" = Normal h
    /\ Get fetched "transactions" = Normal (JArr items)
    /\ mapArray (fun tx => if isString tx then Normal tx else Get tx "hash") items
       = Normal hashes
    /\ Get fetched "miner" = Normal m
    /\ Get fetched "difficulty" = Normal d
    /\ hexToDecimal (or_else d (JStr "0x0")) = Normal difficulty
    /\ hexToDecimal number = Normal (blk_number b)
    /\ blk_hash b = or_else h (JStr "")
    /\ blk_miner b = or_else m (JStr "")
    /\ blk_transactions b = hashes
    /\ blk_difficulty b = Number_toString difficulty.
Proof.
  unfold toEthereumBlock. intros H.
  destruct (Get fetched "number") as [number |]; cbn [andThen] in H; [| discriminate].
  destruct (hexToDecimal number) as [n |] eqn:En; cbn [andThen] in H; [| discriminate].
  destruct (Get fetched "hash") as [h |]; cbn [andThen] in H; [| discriminate].
  destruct (Get fetched "timestamp") as [t |]; cbn [andThen] in H; [| discriminate].
  destruct (hexToDecimal t) as [ts |]; cbn [andThen] in H; [| discriminate].
  destruct (Get fetched "transactions") as [txs |]; cbn [andThen] in H; [| discriminate].
  destruct txs as [| | | | | items |]; cbn [asArray andThen] in H; try discriminate.
  destruct (mapArray _ items) as [hashes |] eqn:Eh; cbn [andThen] in H; [| discriminate].
  destruct (Get fetched "gasUsed") as [gu |]; cbn [andThen] in H; [| discriminate].
  destruct (hexToDecimal gu) as [gasUsed |]; cbn [andThen] in H; [| discriminate].
  destruct (Get fetched "gasLimit") as [gl |]; cbn [andThen] in H; [| discriminate].
  destruct (hexToDecimal gl) as [gasLimit |]; cbn [andThen] in H; [| discriminate].
  destruct (Get fetched "miner") as [m |]; cbn [andThen] in H; [| discriminate].
  destruct (Get fetched "difficulty") as [d |]; cbn [andThen] in H; [| discriminate].
  destruct (hexToDecimal (or_else d (JStr "0x0"))) as [difficulty |] eqn:Ed;
    cbn [andThen] in H; [| discriminate].
  injection H as <-.
  exists number, h, items, hashes, m, d, difficulty.
  repeat split; assumption.
Qed.

Lemma gathered_block (w : World) (u : Update) :
  gather w = Normal (Some u) ->
  exists fetched, truthy fetched = true /\ toEthereumBlock fetched = Normal (u_block u).
Proof.
  intros E.
  destruct (gather_reaches w u E) as (latest & fetched & ethBlock & items & price & Hr & <- & _).
  destruct Hr as (hex & gasPriceHex & _ & _ & _ & Ht & Hb & _).
  exists fetched. split; assumption.
Qed.

Lemma toEthereumBlock_present (fetched : JsVal) (b : EthereumBlock) :
  toEthereumBlock fetched = Normal b -> present (blk_hash b) /\ present (blk_miner b).
Proof.
  intros H.
  destruct (toEthereumBlock_fields fetched b H)
    as (number & h & items & hashes & m & d & df
        & _ & _ & _ & _ & _ & _ & _ & _ & -> & -> & _).
  split; apply or_else_string.
Qed.

Lemma present_cycles (ws : list World) :
  forall c : Cache,
    Forall (fun b => present (blk_hash b) /\ present (blk_miner b)) (blockHistory c) ->
    Forall (fun b => present (blk_hash b) /\ present (blk_miner b))
           (blockHistory (cycles ws c)).
Proof.
  induction ws as [| w rest IH]; intros c H; [exact H |].
  rewrite cycles_step. apply IH. unfold refreshed.
  destruct (gather w) as [[u |] | e] eqn:E; try exact H.
  unfold install; cbn [blockHistory]. rewrite pushFront_firstn. apply Forall_firstn_of.
  constructor; [| exact H].
  destruct (gathered_block w u E) as (fetched & _ & Hb).
  apply (toEthereumBlock_present fetched _ Hb).
Qed.

(** ** X8: hash and miner of a stored block *)

(** X8.  The hash and the miner of every block in the cache - the current
    block and those of the history - are never [null] or [undefined],
    whatever the endpoint returned. *)
Theorem stored_blocks_have_hash_and_miner (ws : list World) :
  Forall (fun b => present (blk_hash b) /\ present (blk_miner b))
         (blockHistory (cycles ws initialCache))
  /\ match block (cycles ws initialCache) with
     | Some b => present (blk_hash b) /\ present (blk_miner b)
     | None => True
     end.
Proof.
  assert (H : Forall (fun b => present (blk_hash b) /\ present (blk_miner b))
                     (blockHistory (cycles ws initialCache))).
  { apply present_cycles. constructor. }
  split; [exact H |].
  destruct (headsAgree_cycles ws initialCache) as [Hhead _]; [split; [reflexivity | exact I] |].
  rewrite <- Hhead. destruct H as [| b rest Hb _]; [exact I | exact Hb].
Qed.

(** ** X9: members a response may lack *)

(** X9.  A block response without [hash] or [miner] ([null] or absent) is
    stored with the empty string there, one without [difficulty] with the
    difficulty "0"; a transaction without [blockNumber] - a pending one -
    is stored with block number 0. *)
Theorem missing_members_get_defaults :
  (forall (fetched : JsVal) (b : EthereumBlock),
     toEthereumBlock fetched = Normal b ->
     (forall h, Get fetched "hash" = Normal h -> truthy h = false -> blk_hash b = JStr "")
     /\ (forall m, Get fetched "miner" = Normal m -> truthy m = false -> blk_miner b = JStr "")
     /\ (forall d, Get fetched "difficulty" = Normal d -> truthy d = false ->
                   blk_difficulty b = "0"))
  /\ (forall (txData : JsVal) (t : EthereumTransaction),
        toEthereumTransaction txData = Normal t ->
        forall n, Get txData "blockNumber" = Normal n -> truthy n = false ->
                  tx_blockNumber t = zero).
Proof.
  split.
  - intros fetched b H.
    destruct (toEthereumBlock_fields fetched b H)
      as (number & h & items & hashes & m & d & df
          & _ & Hh & _ & _ & Hm & Hd & Hdf & _ & -> & -> & _ & ->).
    split; [| split].
    + intros h' Hh' Hf. rewrite Hh in Hh'. injection Hh' as <-.
      unfold or_else. rewrite Hf. reflexivity.
    + intros m' Hm' Hf. rewrite Hm in Hm'. injection Hm' as <-.
      unfold or_else. rewrite Hf. reflexivity.
    + intros d' Hd' Hf. rewrite Hd in Hd'. injection Hd' as <-.
      unfold or_else in Hdf. rewrite Hf in Hdf.
      assert (E : hexToDecimal (JStr "0x0") = Normal zero) by (vm_compute; reflexivity).
      rewrite E in Hdf. injection Hdf as <-. vm_compute. reflexivity.
  - intros txData t H n Hn Hf. unfold toEthereumTransaction in H.
    destruct (Get txData "hash"); cbn [andThen] in H; [| discriminate].
    destruct (Get txData "from"); cbn [andThen] in H; [| discriminate].
    destruct (Get txData "to"); cbn [andThen] in H; [| discriminate].
    destruct (let? v := Get txData "value" in formatEther v); cbn [andThen] in H; [| discriminate].
    destruct (let? v := Get txData "gasPrice" in formatGwei v);
      cbn [andThen] in H; [| discriminate].
    destruct (let? v := Get txData "gas" in hexToDecimal v); cbn [andThen] in H; [| discriminate].
    destruct (let? v := Get txData "nonce" in hexToDecimal v); cbn [andThen] in H; [| discriminate].
    rewrite Hn in H. cbn [andThen] in H. unfold or_else in H. rewrite Hf in H.
    assert (E : hexToDecimal (JStr "0x0") = Normal zero) by (vm_compute; reflexivity).
    rewrite E in H. cbn [andThen] in H. injection H as <-. reflexivity.
Qed.

Lemma missing_members_get_defaults_witness :
  option_map blk_difficulty (block (cachedData (cycle (Sample.atBlock "0x10" 1000) initialCache)))
  = Some "0".
Proof.
  destruct (block (cachedData (cycle (Sample.atBlock "0x10" 1000) initialCache)))
    as [b |] eqn:E; [| vm_compute in E; discriminate].
  cbn [option_map]. f_equal.
  apply (proj2 (proj2 (proj1 missing_members_get_defaults (Sample.blockJson "0x10" []) b
                         ltac:(vm_compute in E; injection E as <-; vm_compute; reflexivity)))
           JUndefined); reflexivity.
Defined.

(** ** X10: the two decoders on RPC quantities *)

Lemma digitValue_nonneg (radix : Z) (c : ascii) (d : Z) :
  digitValue radix c = Some d -> 0 <= d.
Proof.
  unfold digitValue.
  destruct ((48 <=? code c) && (code c <=? 57)) eqn:E1.
  - apply andb_prop in E1 as [H _]. apply Z.leb_le in H.
    destruct (code c - 48 <? radix); [| discriminate]. intros [= <-]. lia.
  - destruct ((97 <=? code c) && (code c <=? 122)) eqn:E2.
    + apply andb_prop in E2 as [H _]. apply Z.leb_le in H.
      destruct (code c - 87 <? radix); [| discriminate]. intros [= <-]. lia.
    + destruct ((65 <=? code c) && (code c <=? 90)) eqn:E3.
      * apply andb_prop in E3 as [H _]. apply Z.leb_le in H.
        destruct (code c - 55 <? radix); [| discriminate]. intros [= <-]. lia.
      * rewrite Z.ltb_irrefl. discriminate.
Qed.

(** A string of hexadecimal digits is read to its end. *)
Lemma readDigits_hex (body : string) :
  forall (acc : Z) (n : nat),
    hexDigits body = true ->
    0 <= acc ->
    exists v : Z,
      readDigits 16 body acc n = (v, (n + String.length body)%nat, "") /\ 0 <= v.
Proof.
  induction body as [| c rest IH]; intros acc n H Hacc; cbn [hexDigits readDigits String.length] in *.
  - exists acc. rewrite Nat.add_0_r. split; [reflexivity | exact Hacc].
  - destruct (digitValue 16 c) as [d |] eqn:E; [| discriminate].
    pose proof (digitValue_nonneg _ _ _ E).
    destruct (IH (acc * 16 + d) (S n) H ltac:(lia)) as (v & Hv & Hpos).
    exists v. rewrite Hv. split; [f_equal; f_equal; lia | exact Hpos].
Qed.

Lemma skipWhite_quantity (body : string) :
  skipWhite (String "0" (String "x" body)) = String "0" (String "x" body).
Proof. destruct body; reflexivity. Qed.

(** X10.  On a quantity as the JSON-RPC interface encodes it - "0x" and at
    least one hexadecimal digit - neither decoder throws, and the two
    agree: [hexToDecimal] returns the number value of the integer that
    [hexToBigInt] returns, which is not negative; so [formatEther] and
    [formatGwei] do not throw on it either. *)
Theorem decoders_agree_on_quantities (body : string)
    (Hsome : body <> "") (Hhex : hexDigits body = true) :
  exists n : Z,
    0 <= n
    /\ hexToBigInt (JStr (String "0" (String "x" body))) = Normal n
    /\ hexToDecimal (JStr (String "0" (String "x" body))) = Normal (NumberOfBigInt n)
    /\ formatEther (JStr (String "0" (String "x" body)))
       = Normal (toFixed (div (NumberOfBigInt n) lit_1e18) 6)
    /\ formatGwei (JStr (String "0" (String "x" body)))
       = Normal (toFixed (div (NumberOfBigInt n) lit_1e9) 2).
Proof.
  destruct (readDigits_hex body 0 0 Hhex ltac:(lia)) as (n & Hread & Hpos).
  assert (Hlen : exists k, (0 + String.length body)%nat = S k).
  { destruct body; [contradiction Hsome; reflexivity | now eexists]. }
  destruct Hlen as [k Hk]. rewrite Hk in Hread.
  assert (Hbig : hexToBigInt (JStr (String "0" (String "x" body))) = Normal n).
  { unfold hexToBigInt, BigInt, StringToBigInt. rewrite skipWhite_quantity.
    cbn -[readDigits isBlank]. rewrite Hread. reflexivity. }
  exists n. split; [exact Hpos |]. split; [exact Hbig |]. split; [| split].
  - unfold hexToDecimal, parseInt. cbn [ToString andThen]. rewrite skipWhite_quantity.
    cbn -[readDigits ofInteger]. rewrite Hread. reflexivity.
  - unfold formatEther. rewrite Hbig. reflexivity.
  - unfold formatGwei. rewrite Hbig. reflexivity.
Qed.

Lemma decoders_agree_on_quantities_witness :
  exists n : Z,
    0 <= n
    /\ hexToBigInt (JStr "0x1c9c380") = Normal n
    /\ hexToDecimal (JStr "0x1c9c380") = Normal (NumberOfBigInt n)
    /\ formatEther (JStr "0x1c9c380") = Normal (toFixed (div (NumberOfBigInt n) lit_1e18) 6)
    /\ formatGwei (JStr "0x1c9c380") = Normal (toFixed (div (NumberOfBigInt n) lit_1e9) 2).
Proof.
  apply (decoders_agree_on_quantities "1c9c380"); [discriminate | reflexivity].
Defined.

(** ** X11: the snapshot route never fails *)

Lemma snapshot_answers (w : World) (p : Proc) :
  fst (snapshotRoute w p) = Normal (SnapshotJson (cachedData (snd (snapshotRoute w p)))).
Proof.
  destruct (Z.lt_ge_cases 30000 (now w Arrival - lastUpdate (cachedData p))) as [H | H].
  - rewrite (snapshot_stale w p H). reflexivity.
  - rewrite (snapshot_fresh w p H). reflexivity.
Qed.

Lemma unreachable_gather (w : World) :
  (forall site request, reply w site request = Unreachable) ->
  gather w = Throw FetchError.
Proof.
  intros H. unfold gather, answer. rewrite H. reflexivity.
Qed.

(** X11.  The snapshot route never throws: whatever the endpoint does, it
    answers with the cache as the route leaves it.  With the endpoint
    unreachable that is the cache it found - stale data, or the initial
    snapshot, instead of an error - and a run of such requests, however
    long, leaves the cache untouched. *)
Theorem snapshot_route_never_fails (w : World) (p : Proc) (ws : list World) (c : Cache) :
  fst (snapshotRoute w p) = Normal (SnapshotJson (cachedData (snd (snapshotRoute w p))))
  /\ ((forall site request, reply w site request = Unreachable) ->
      fst (snapshotRoute w p) = Normal (SnapshotJson (cachedData p)))
  /\ (Forall (fun w' => forall site request, reply w' site request = Unreachable) ws ->
      fold_left (fun c' w' => cachedData (snd (snapshotRoute w' (holding c')))) ws c = c).
Proof.
  assert (Hone : forall w' q,
            (forall site request, reply w' site request = Unreachable) ->
            cachedData (snd (snapshotRoute w' q)) = cachedData q).
  { intros w' q H.
    destruct (Z.lt_ge_cases 30000 (now w' Arrival - lastUpdate (cachedData q))) as [Ha | Ha].
    - rewrite (snapshot_stale w' q Ha). cbn [snd]. rewrite cycle_trace. cbn [cachedData].
      unfold refreshed. rewrite (unreachable_gather w' H). reflexivity.
    - rewrite (snapshot_fresh w' q Ha). reflexivity. }
  split; [apply snapshot_answers |]. split.
  - intros H. rewrite snapshot_answers, (Hone w p H). reflexivity.
  - intros H. induction H as [| w' rest Hw' _ IH]; [reflexivity |].
    cbn [fold_left]. rewrite (Hone w' (holding c) Hw'). exact IH.
Qed.

Lemma snapshot_route_never_fails_witness :
  fst (snapshotRoute (Sample.down 45000) (holding initialCache))
  = Normal (SnapshotJson initialCache)
  /\ fold_left (fun c' w' => cachedData (snd (snapshotRoute w' (holding c'))))
               [Sample.down 45000; Sample.down 90000] initialCache
     = initialCache.
Proof.
  pose proof (snapshot_route_never_fails (Sample.down 45000) (holding initialCache)
                [Sample.down 45000; Sample.down 90000] initialCache) as (_ & H1 & H2).
  split.
  - apply H1. intros site request. reflexivity.
  - apply H2. repeat constructor.
Defined.

(** ** X12: every sampled transaction is accounted for *)

Lemma sampled_accounted (w : World) (txList : list JsVal) :
  forall i : nat,
    (List.length (details w i txList) + List.length (txErrors w i txList)
     + countAbsent w i txList)%nat
    = List.length txList.
Proof.
  induction txList as [| tx rest IH]; intros i; cbn [details txErrors countAbsent List.length];
    [reflexivity |].
  specialize (IH (S i)). unfold detail, txError, txAbsent.
  destruct (dataOf w i tx) as [txData | e]; [| cbn [List.length]; lia].
  destruct (truthy txData); cbn [negb]; [| lia].
  destruct (toEthereumTransaction txData); cbn [List.length]; lia.
Qed.

Lemma sampledFrom_gather (w : World) (u : Update) :
  gather w = Normal (Some u) ->
  exists items, sampledFrom w = Some items
                /\ u_transactions u = details w 0 (firstn 15 items).
Proof.
  intros E.
  destruct (gather_reaches w u E) as (latest & fetched & ethBlock & items & price & Hr & _ & Ht & _).
  destruct Hr as (hex & gasPriceHex & H1 & H2 & H3 & H4 & H5 & H6 & _).
  exists items. split; [| exact Ht].
  unfold sampledFrom, blockNumberRequest, blockRequest.
  rewrite H1, H2, H3, H4, H5, H6. reflexivity.
Qed.

(** X12.  Of the transactions a cycle samples, each one is either stored,
    or logged with the error that its lookup or its normalization threw,
    or - its data being falsy, as when the lookup returns [null] - dropped
    without a trace.  The console of the cycle holds one 'Error processing
    transaction:' line for each of the second kind, in order, and then the
    line the cycle ends with; when that is the 'Updated' line, its count is
    the length of the stored list. *)
Theorem sampled_transactions_accounted (w : World) (c : Cache) (items : list JsVal)
    (Hitems : sampledFrom w = Some items) :
  (List.length (details w 0 (firstn 15 items))
   + List.length (txErrors w 0 (firstn 15 items))
   + countAbsent w 0 (firstn 15 items))%nat
  = List.length (firstn 15 items)
  /\ rev (console (cycle w c))
     = (map ErrorProcessingTransaction (txErrors w 0 (firstn 15 items)) ++ [lastLine w])%list
  /\ (updated (cycle w c) = true ->
      transactions (cachedData (cycle w c)) = details w 0 (firstn 15 items)
      /\ exists latest : Number,
           lastLine w
           = UpdatedEthereumData latest (List.length (transactions (cachedData (cycle w c))))).
Proof.
  split; [apply sampled_accounted |]. split.
  - rewrite cycle_state. cbn [console]. unfold txLines. rewrite Hitems.
    cbn [rev]. rewrite rev_involutive. reflexivity.
  - rewrite updated_gather, cycle_cache. unfold refreshed, lastLine.
    destruct (gather w) as [[u |] | e] eqn:E; try discriminate. intros _.
    destruct (sampledFrom_gather w u E) as (items' & Hitems' & Ht).
    rewrite Hitems in Hitems'. injection Hitems' as <-.
    unfold install; cbn [transactions]. split; [exact Ht |].
    now exists (net_blockNumber (u_networkInfo u)).
Qed.

Lemma sampled_transactions_accounted_witness :
  rev (console (cycle (Sample.oneLost 1000) initialCache))
  = [ErrorProcessingTransaction FetchError; UpdatedEthereumData (literal 16) 2].
Proof.
  destruct (sampled_transactions_accounted (Sample.oneLost 1000) initialCache
              [Sample.transfer "0x01" (JStr "0xb0"); JStr "0x02"; Sample.creation "0x03"])
    as (_ & -> & _).
  - vm_compute. reflexivity.
  - vm_compute. reflexivity.
Defined.

(** ** X13: the hash of an embedded transaction *)

Lemma mapArray_nth {A B : Type} (f : A -> Completion B) (items : list A) (d : A) (d' : B) :
  forall (ys : list B) (j : nat),
    mapArray f items = Normal ys ->
    (j < List.length items)%nat ->
    f (nth j items d) = Normal (nth j ys d').
Proof.
  induction items as [| x rest IH]; intros ys j H Hj; cbn [List.length] in Hj; [lia |].
  cbn [mapArray] in H.
  destruct (f x) as [y |] eqn:Ey; cbn [andThen] in H; [| discriminate].
  destruct (mapArray f rest) as [ys' |]; cbn [andThen] in H; [| discriminate].
  injection H as <-. destruct j as [| j]; cbn [nth]; [exact Ey |].
  apply IH; [reflexivity | lia].
Qed.

(** X13.  In a cycle that completes, a stored transaction that came
    embedded in the block (not as a hash to look up) carries the hash that
    the stored block lists at its position. *)
Theorem embedded_transaction_hash_is_listed
    (w : World) (c : Cache) (latest : Number) (fetched : JsVal) (ethBlock : EthereumBlock)
    (items : list JsVal) (price : string) (j : nat) (t : EthereumTransaction)
    (Hsteps : reaches w latest fetched ethBlock items price)
    (Hj : (j < List.length (firstn 15 items))%nat)
    (Hembedded : isString (nth j items JUndefined) = false)
    (Hstored : detail w j (nth j items JUndefined) = Some t) :
  block (cachedData (cycle w c)) = Some ethBlock
  /\ tx_hash t = nth j (blk_transactions ethBlock) JUndefined.
Proof.
  split.
  - rewrite cycle_cache. unfold refreshed. rewrite (reaches_gather _ _ _ _ _ _ Hsteps).
    reflexivity.
  - destruct Hsteps as (hex & gasPriceHex & _ & _ & _ & _ & Hb & Hi & _).
    destruct (toEthereumBlock_fields fetched ethBlock Hb)
      as (number & h & items' & hashes & m & d & df
          & _ & _ & Htxs & Hmap & _ & _ & _ & _ & _ & _ & -> & _).
    rewrite Htxs in Hi. cbn [andThen asArray] in Hi. injection Hi as ->.
    assert (Hj' : (j < List.length items)%nat).
    { rewrite length_firstn in Hj. lia. }
    pose proof (mapArray_nth _ items JUndefined JUndefined hashes j Hmap Hj') as Hnth.
    cbv beta in Hnth. rewrite Hembedded in Hnth.
    unfold detail, dataOf in Hstored. rewrite Hembedded in Hstored.
    destruct (truthy (nth j items JUndefined)); [| discriminate].
    destruct (toEthereumTransaction (nth j items JUndefined)) as [t' |] eqn:Et; [| discriminate].
    injection Hstored as ->. unfold toEthereumTransaction in Et. rewrite Hnth in Et.
    cbn [andThen] in Et.
    repeat match type of Et with
           | andThen ?c _ = _ => destruct c; cbn [andThen] in Et; [| discriminate]
           end.
    injection Et as <-. reflexivity.
Qed.

Lemma embedded_transaction_hash_is_listed_witness :
  option_map tx_hash (detail (Sample.oneLost 1000) 2 (Sample.creation "0x03"))
  = Some (JStr "0x03").
Proof.
  destruct (detail (Sample.oneLost 1000) 2 (Sample.creation "0x03")) as [t |] eqn:E;
    [| vm_compute in E; discriminate].
  cbn [option_map]. f_equal.
  refine (proj2 (embedded_transaction_hash_is_listed (Sample.oneLost 1000) initialCache
            (literal 16)
            (Sample.blockJson "0x10"
               [Sample.transfer "0x01" (JStr "0xb0"); JStr "0x02"; Sample.creation "0x03"])
            {| blk_number := literal 16; blk_hash := JStr "0xb10c";
               blk_timestamp := literal 1694498816;
               blk_transactions := [JStr "0x01"; JStr "0x02"; JStr "0x03"];
               blk_gasUsed := "21000"; blk_gasLimit := "30000000";
               blk_miner := JStr "0xc0"; blk_difficulty := "0"; blk_txCount := 3 |}
            [Sample.transfer "0x01" (JStr "0xb0"); JStr "0x02"; Sample.creation "0x03"]
            "2.00" 2%nat t _ _ _ E)).
  - exists (JStr "0x10"), (JStr "0x77359400"). repeat split; vm_compute; reflexivity.
  - vm_compute. lia.
  - reflexivity.
Defined.

(** ** X14: where the block numbers come from *)

(** X14.  [networkInfo.blockNumber] is decoded from the answer to
    eth_blockNumber, and the number of the current block from the block
    that eth_getBlockByNumber returned for that answer; the module does not
    compare them.  When the first answer has no [result] (a JSON-RPC error
    body) the block is requested with [undefined], and a cycle that still
    completes reports the block number [NaN]. *)
Theorem block_numbers_have_two_sources (w : World) (c : Cache)
    (Hupdated : updated (cycle w c) = true) :
  exists (hex fetched : JsVal) (b : EthereumBlock),
    answer w AtBlockNumber blockNumberRequest = Normal hex
    /\ answer w AtBlock (blockRequest hex) = Normal fetched
    /\ hexToDecimal hex = Normal (net_blockNumber (networkInfo (cachedData (cycle w c))))
    /\ block (cachedData (cycle w c)) = Some b
    /\ (let? v := Get fetched "number" in hexToDecimal v) = Normal (blk_number b)
    /\ (hex = JUndefined ->
        net_blockNumber (networkInfo (cachedData (cycle w c))) = NaN).
Proof.
  rewrite updated_gather in Hupdated. rewrite cycle_cache. unfold refreshed.
  destruct (gather w) as [[u |] | e] eqn:E; try discriminate.
  destruct (gather_reaches w u E) as (latest & fetched & ethBlock & items & price & Hr & Hb & _).
  pose proof (reaches_gather _ _ _ _ _ _ Hr) as E'. rewrite E in E'.
  injection E' as Eu. apply (f_equal u_networkInfo) in Eu as Hn. cbn [u_networkInfo] in Hn.
  destruct Hr as (hex & gasPriceHex & H1 & H2 & H3 & _ & H5 & _).
  exists hex, fetched, ethBlock.
  unfold install; cbn [networkInfo block]. rewrite Hn, Hb. cbn [net_blockNumber].
  split; [exact H1 |]. split; [exact H3 |]. split; [exact H2 |]. split; [reflexivity |]. split.
  - destruct (toEthereumBlock_fields fetched ethBlock H5)
      as (number & h & items' & hashes & m & d & df & Hnum & _ & _ & _ & _ & _ & _ & Hdec & _).
    rewrite Hnum. exact Hdec.
  - intros ->. vm_compute in H2. injection H2 as <-. reflexivity.
Qed.

Lemma block_numbers_have_two_sources_witness :
  option_map (fun b => Number_toString (blk_number b))
             (block (cachedData (cycle (Sample.lagging 1000) initialCache))) = Some "16"
  /\ Number_toString (net_blockNumber (networkInfo (cachedData (cycle (Sample.lagging 1000)
                                                                   initialCache)))) = "17".
Proof.
  destruct (block_numbers_have_two_sources (Sample.lagging 1000) initialCache)
    as (hex & fetched & b & H1 & H2 & H3 & H4 & H5 & _).
  - vm_compute. reflexivity.
  - split; vm_compute; reflexivity.
Defined.

(** ** X15: JSON-RPC error responses *)

Lemma errorBody_answer (w : World) (site : CallSite) (request : Rpc) :
  errorBody (reply w site request) -> answer w site request = Normal JUndefined.
Proof.
  intros (props & Hbody & Hresult). unfold answer. rewrite Hbody. cbn [Get].
  rewrite Hresult. reflexivity.
Qed.

(** X15.  [rpcCall] does not treat a JSON-RPC error response as an error:
    it returns [undefined].  So an error response to the block request
    ends the cycle on 'Failed to fetch block' after two requests, and an
    error response to the gas-price request makes [formatGwei] throw a
    TypeError, which abandons the cycle after its lookups; either way the
    cache is left as it was. *)
Theorem error_responses_end_the_cycle (w : World) (c : Cache) :
  (forall (hex : JsVal) (latest : Number),
     answer w AtBlockNumber blockNumberRequest = Normal hex ->
     hexToDecimal hex = Normal latest ->
     errorBody (reply w AtBlock (blockRequest hex)) ->
     cycle w c = {| cachedData := c;
                    console := [FailedToFetchBlock];
                    sent := [blockRequest hex; blockNumberRequest] |})
  /\ (forall items : list JsVal,
        sampledFrom w = Some items ->
        errorBody (reply w AtGasPrice gasPriceRequest) ->
        cachedData (cycle w c) = c
        /\ hd_error (console (cycle w c)) = Some (ErrorFetchingEthereumData TypeError)
        /\ hd_error (sent (cycle w c)) = Some gasPriceRequest).
Proof.
  split.
  - intros hex latest Hhex Hlatest Herr. apply errorBody_answer in Herr.
    rewrite cycle_state. unfold refreshed, lastLine, txLines, posted, sampledFrom, gather.
    fold blockNumberRequest. rewrite Hhex; cbn [andThen]. rewrite Hlatest; cbn [andThen].
    fold (blockRequest hex). rewrite Herr. reflexivity.
  - intros items Hitems Herr. apply errorBody_answer in Herr.
    rewrite cycle_state. cbn [cachedData console sent hd_error].
    unfold refreshed, lastLine, posted. rewrite Hitems.
    unfold sampledFrom in Hitems. unfold gather. fold blockNumberRequest.
    destruct (answer w AtBlockNumber blockNumberRequest) as [hex |]; [| discriminate].
    cbn [andThen]. destruct (hexToDecimal hex) as [latest |]; [| discriminate].
    cbn [andThen]. fold (blockRequest hex).
    destruct (answer w AtBlock (blockRequest hex)) as [fetched |]; [| discriminate].
    cbn [andThen]. destruct (truthy fetched); [| discriminate]. cbn [negb].
    destruct (toEthereumBlock fetched) as [ethBlock |]; [| discriminate]. cbn [andThen].
    destruct (let? v := Get fetched "transactions" in asArray v) as [items' |]; [| discriminate].
    cbn [andThen]. fold gasPriceRequest. rewrite Herr. cbn [andThen formatGwei].
    split; [reflexivity |]. split; [reflexivity |].
    cbn [rev]. rewrite rev_app_distr. reflexivity.
Qed.

Lemma error_responses_end_the_cycle_witness :
  cycle {| reply := fun site _ =>
             match site with
             | AtBlockNumber => Sample.envelope (JStr "0x10")
             | _ => Body (JObj [("jsonrpc", JStr "2.0"); ("error", JObj [("code", JStr "-32000")])])
             end;
           random := fun _ => zero;
           now := fun _ => 1000 |} initialCache
  = {| cachedData := initialCache;
       console := [FailedToFetchBlock];
       sent := [blockRequest (JStr "0x10"); blockNumberRequest] |}.
Proof.
  apply (proj1 (error_responses_end_the_cycle _ initialCache) (JStr "0x10") (literal 16)).
  - vm_compute. reflexivity.
  - vm_compute. reflexivity.
  - eexists. split; reflexivity.
Defined.

(** ** X16: the life of the process *)

Lemma cycles_snoc (ws : list World) (w : World) :
  forall c : Cache, cycles (ws ++ [w]) c = refreshed w (cycles ws c).
Proof.
  induction ws as [| w' rest IH]; intros c; cbn [app].
  - rewrite cycles_step. reflexivity.
  - rewrite !cycles_step. apply IH.
Qed.

Lemma handle_cache (ev : Event) (p : Proc) :
  cachedData (handle ev p) = cachedData p
  \/ exists w, cachedData (handle ev p) = refreshed w (cachedData p).
Proof.
  destruct ev as [w | w | w | w]; cbn [handle].
  - right. exists w. rewrite cycle_trace. reflexivity.
  - destruct (Z.lt_ge_cases 30000 (now w Arrival - lastUpdate (cachedData p))) as [H | H].
    + right. exists w. rewrite (snapshot_stale w p H). cbn [snd]. rewrite cycle_trace.
      reflexivity.
    + left. rewrite (snapshot_fresh w p H). reflexivity.
  - left. reflexivity.
  - left. reflexivity.
Qed.

Lemma run_cycles (events : list Event) :
  forall p : Proc,
  exists ws : list World,
    cachedData (run events p) = cycles ws (cachedData p)
    /\ (List.length ws <= List.length events)%nat.
Proof.
  induction events as [| ev rest IH] using rev_ind; intros p.
  - exists []. split; [reflexivity | cbn; lia].
  - destruct (IH p) as (ws & Hws & Hlen). unfold run in *. rewrite fold_left_app.
    cbn [fold_left]. rewrite length_app. cbn [List.length].
    destruct (handle_cache ev (fold_left (fun q ev0 => handle ev0 q) rest p)) as [H | [w H]].
    + exists ws. rewrite H, Hws. split; [reflexivity | lia].
    + exists (ws ++ [w])%list. rewrite H, Hws, cycles_snoc, length_app. cbn [List.length].
      split; [reflexivity | lia].
Qed.

(** X16.  Whatever happens to the process - timer ticks and requests for
    the three routes in any order, each handled to its end - its cache is
    one that a sequence of refresh cycles produces from the initial cache,
    with at most one cycle per event; so it keeps its block history to 20
    entries, its gas-price history to 50, its transaction list to 15, and
    stays coherent. *)
Theorem process_cache_comes_from_cycles (events : list Event) :
  (exists ws : list World,
     cachedData (run events (holding initialCache)) = cycles ws initialCache
     /\ (List.length ws <= List.length events)%nat)
  /\ (List.length (blockHistory (cachedData (run events (holding initialCache)))) <= 20)%nat
  /\ (List.length (gasPriceHistory (cachedData (run events (holding initialCache)))) <= 50)%nat
  /\ (List.length (transactions (cachedData (run events (holding initialCache)))) <= 15)%nat
  /\ coherent (cachedData (run events (holding initialCache))).
Proof.
  destruct (run_cycles events (holding initialCache)) as (ws & Hws & Hlen).
  cbn [holding cachedData] in Hws.
  split; [exists ws; split; assumption |]. rewrite Hws.
  split; [rewrite blockHistory_pushed; apply firstn_le_length |].
  split; [rewrite gasPriceHistory_pushed; apply firstn_le_length |].
  split; [apply transactions_bounded; cbn; lia |].
  apply coherent_cycles. split; reflexivity.
Qed.

(** ** X17: the fee estimator on an empty or zero gas price *)

Lemma baseGas_fallback (avgGasPrice : string) :
  truthy (JNum (parseFloat avgGasPrice)) = false -> baseGas avgGasPrice = literal 10.
Proof. unfold baseGas. intros ->. reflexivity. Qed.

(** X17.  The base price of the dashboard's fee estimator is never zero and
    never NaN: when the served [avgGasPrice] parses to zero or does not
    parse, the estimator falls back to 10 gwei and shows 8, 10 and 12.
    That is what it shows as long as no refresh cycle has completed. *)
Theorem fee_estimator_falls_back_to_ten (served : string) (ws : list World) :
  truthy (JNum (baseGas served)) = true
  /\ (truthy (JNum (parseFloat served)) = false ->
      gasEstimate served
      = {| slow := literal 8; standard := literal 10; fast := literal 12 |})
  /\ (completed ws initialCache = 0%nat ->
      gasEstimate (avgGasPrice (mempoolStats (cycles ws initialCache)))
      = {| slow := literal 8; standard := literal 10; fast := literal 12 |}).
Proof.
  split; [| split].
  - unfold baseGas. destruct (truthy (JNum (parseFloat served))) eqn:E; [exact E |].
    reflexivity.
  - intros H. unfold gasEstimate. rewrite (baseGas_fallback _ H). vm_compute. reflexivity.
  - intros H. rewrite (none_completed ws initialCache H). vm_compute. reflexivity.
Qed.

Lemma fee_estimator_falls_back_to_ten_witness :
  gasEstimate "0.00" = {| slow := literal 8; standard := literal 10; fast := literal 12 |}
  /\ gasEstimate (avgGasPrice (mempoolStats (cycles [Sample.down 1000] initialCache)))
     = {| slow := literal 8; standard := literal 10; fast := literal 12 |}.
Proof.
  pose proof (fee_estimator_falls_back_to_ten "0.00" [Sample.down 1000]) as (_ & H1 & H2).
  split; [apply H1 | apply H2]; vm_compute; reflexivity.
Defined.

(** ** X18: how old a served snapshot can be *)

(** X18.  The clock not running backwards, the snapshot that the route
    serves is at most 30000 ms old at the time of the request, unless the
    refresh cycle that the route ran has failed. *)
Theorem served_snapshot_is_fresh_or_refresh_failed (w : World) (c : Cache)
    (Hclock : now w Arrival <= now w Commit) :
  exists t : Z,
    servedLastUpdate (fst (snapshotRoute w (holding c))) = Some t
    /\ (now w Arrival - t <= 30000
        \/ (30000 < now w Arrival - lastUpdate c /\ failed (cycle w c) = true /\ t = lastUpdate c)).
Proof.
  destruct (Z.lt_ge_cases 30000 (now w Arrival - lastUpdate c)) as [H | H].
  - rewrite (snapshot_stale w (holding c) H). cbn [fst servedLastUpdate].
    change (snd (fetchLatestBlockData w (holding c))) with (cycle w c).
    destruct (updated (cycle w c)) eqn:E.
    + exists (now w Commit). rewrite (updated_lastUpdate w c E). split; [reflexivity |].
      left. lia.
    + assert (Hf : failed (cycle w c) = true) by (rewrite failed_or_updated, E; reflexivity).
      exists (lastUpdate c). rewrite (failed_cache w c Hf). split; [reflexivity |].
      right. repeat split; assumption.
  - rewrite (snapshot_fresh w (holding c)) by exact H. cbn [fst servedLastUpdate].
    exists (lastUpdate c). split; [reflexivity | left; exact H].
Qed.

Lemma served_snapshot_is_fresh_or_refresh_failed_witness :
  exists t : Z,
    servedLastUpdate (fst (snapshotRoute (Sample.atBlock "0x10" 45000) (holding initialCache)))
    = Some t
    /\ (now (Sample.atBlock "0x10" 45000) Arrival - t <= 30000
        \/ (30000 < now (Sample.atBlock "0x10" 45000) Arrival - lastUpdate initialCache
            /\ failed (cycle (Sample.atBlock "0x10" 45000) initialCache) = true
            /\ t = lastUpdate initialCache)).
Proof.
  apply (served_snapshot_is_fresh_or_refresh_failed (Sample.atBlock "0x10" 45000) initialCache).
  vm_compute. discriminate.
Defined.
